(** * server.js: an HTTP relay in front of a mobile-money gateway

    A shallow embedding of [server.js] (Express handlers calling the Daraja
    API through axios) and the properties its specification states.

    Conventions of the model.
    - A JavaScript string is a Rocq [string]: the list of the bytes of its
      UTF-8 encoding.  [Buffer.from(s)] is therefore the byte list of [s]
      itself, and [slice] counts bytes, which is what JavaScript counts on
      ASCII text such as the ISO rendering of a date.
    - A JavaScript number is an IEEE-754 binary64 value, Rocq's primitive
      [float].  The server never computes with numbers; it passes them on.
    - A value of [process.env] is [option string] ([None] is [undefined]).
    - An object is the list of its own properties, in property order,
      each key once.  [req.body] is what [bodyParser.json()] leaves there.
    - An [async] handler is a tree of the effects it performs (outbound
      axios calls, a clock reading, console output) ending in the HTTP
      reply it writes; a [world] answers the effects. *)

From Stdlib Require Import ZArith NArith List String Ascii Bool Lia.
From Stdlib Require Import Floats DecimalString.
Import ListNotations.
Local Open Scope string_scope.
Set Warnings "-register-all".

(** ** JavaScript strings *)

Module JsString.

(** [`${x}`] for a value of [process.env]. *)
Definition interpolate_env (x : option string) : string :=
  match x with
  | Some s => s
  | None => "undefined"
  end.

(** [s.slice(0, n)]. *)
Fixpoint slice0 (n : nat) (s : string) : string :=
  match n, s with
  | O, _ => ""
  | S _, EmptyString => ""
  | S n', String c s' => String c (slice0 n' s')
  end.

(** [s.replace(/[...]/g, '')] for a character class given as a predicate. *)
Fixpoint remove_class (cls : ascii -> bool) (s : string) : string :=
  match s with
  | EmptyString => ""
  | String c s' =>
      if cls c then remove_class cls s' else String c (remove_class cls s')
  end.

Fixpoint all_chars (p : ascii -> bool) (s : string) : bool :=
  match s with
  | EmptyString => true
  | String c s' => p c && all_chars p s'
  end.

Definition is_digit (c : ascii) : bool :=
  let n := N_of_ascii c in ((48 <=? n) && (n <=? 57))%N.

End JsString.

(** ** Base64, as [Buffer.prototype.toString('base64')] produces it
    (RFC 4648, standard alphabet, [=] padding), and its inverse. *)

Module Base64.

(** The character of a 6-bit group. *)
Definition enc_char (n : N) : ascii :=
  if (n <? 26)%N then ascii_of_N (65 + n)
  else if (n <? 52)%N then ascii_of_N (71 + n)
  else if (n <? 62)%N then ascii_of_N (n - 4)
  else if (n =? 62)%N then "+"%char
  else "/"%char.


Definition pad_char : ascii := "="%char.

(** Three bytes are cut into four 6-bit groups. *)
Definition sextet1 (a : N) : N := N.shiftr a 2.
Definition sextet2 (a b : N) : N :=
  N.lor (N.shiftl (N.land a 3) 4) (N.shiftr b 4).
Definition sextet3 (b c : N) : N :=
  N.lor (N.shiftl (N.land b 15) 2) (N.shiftr c 6).
Definition sextet4 (c : N) : N := N.land c 63.

Fixpoint encode (bs : list ascii) : list ascii :=
  match bs with
  | [] => []
  | [a] =>
      let a := N_of_ascii a in
      [enc_char (sextet1 a); enc_char (sextet2 a 0); pad_char; pad_char]
  | [a; b] =>
      let a := N_of_ascii a in
      let b := N_of_ascii b in
      [enc_char (sextet1 a); enc_char (sextet2 a b);
       enc_char (sextet3 b 0); pad_char]
  | a :: b :: c :: rest =>
      let a := N_of_ascii a in
      let b := N_of_ascii b in
      let c := N_of_ascii c in
      enc_char (sextet1 a) :: enc_char (sextet2 a b)
        :: enc_char (sextet3 b c) :: enc_char (sextet4 c) :: encode rest
  end.



(** [Buffer.from(s)]: the UTF-8 bytes of a string. *)
Definition Buffer_from (s : string) : list ascii := list_ascii_of_string s.

(** [buf.toString('base64')]. *)
Definition toString_base64 (buf : list ascii) : string :=
  string_of_list_ascii (encode buf).

(** [Buffer.from(s).toString('base64')]. *)
Definition btoa (s : string) : string := toString_base64 (Buffer_from s).


End Base64.

(** ** Dates: the time-value arithmetic of ECMAScript (section "Date
    objects") behind [new Date().toISOString()].  A time value is a
    number of milliseconds since 1970-01-01T00:00:00Z. *)

Module JsDate.
Local Open Scope Z_scope.

Definition msPerDay : Z := 86400000.
Definition msPerHour : Z := 3600000.
Definition msPerMinute : Z := 60000.
Definition msPerSecond : Z := 1000.

(** The largest time value a [Date] holds, in absolute value. *)
Definition maxTimeValue : Z := 8640000000000000.

Definition Day (t : Z) : Z := t / msPerDay.

Definition DaysInYear (y : Z) : Z :=
  if negb (y mod 4 =? 0) then 365
  else if negb (y mod 100 =? 0) then 366
  else if negb (y mod 400 =? 0) then 365
  else 366.

Definition DayFromYear (y : Z) : Z :=
  365 * (y - 1970) + (y - 1969) / 4 - (y - 1901) / 100 + (y - 1601) / 400.

Definition TimeFromYear (y : Z) : Z := msPerDay * DayFromYear y.

(** The largest [y] with [TimeFromYear y <= t]: a first guess from the
    mean length of a year (146097 days in 400 years), moved by one
    where the guess is off ([JsDateFacts.YearFromTime_largest]). *)
Definition YearFromTime (t : Z) : Z :=
  let d := Day t in
  let y := 1970 + (400 * d) / 146097 in
  if d <? DayFromYear y then y - 1
  else if DayFromYear (y + 1) <=? d then y + 1
  else y.

Definition InLeapYear (t : Z) : Z :=
  if DaysInYear (YearFromTime t) =? 366 then 1 else 0.

Definition DayWithinYear (t : Z) : Z :=
  Day t - DayFromYear (YearFromTime t).

Definition MonthFromTime (t : Z) : Z :=
  let d := DayWithinYear t in
  let l := InLeapYear t in
  if d <? 31 then 0
  else if d <? 59 + l then 1
  else if d <? 90 + l then 2
  else if d <? 120 + l then 3
  else if d <? 151 + l then 4
  else if d <? 181 + l then 5
  else if d <? 212 + l then 6
  else if d <? 243 + l then 7
  else if d <? 273 + l then 8
  else if d <? 304 + l then 9
  else if d <? 334 + l then 10
  else 11.

Definition DateFromTime (t : Z) : Z :=
  let d := DayWithinYear t in
  let l := InLeapYear t in
  match MonthFromTime t with
  | 0 => d + 1
  | 1 => d - 30
  | 2 => d - 58 - l
  | 3 => d - 89 - l
  | 4 => d - 119 - l
  | 5 => d - 150 - l
  | 6 => d - 180 - l
  | 7 => d - 211 - l
  | 8 => d - 242 - l
  | 9 => d - 272 - l
  | 10 => d - 303 - l
  | _ => d - 333 - l
  end.

Definition HourFromTime (t : Z) : Z := (t / msPerHour) mod 24.
Definition MinFromTime (t : Z) : Z := (t / msPerMinute) mod 60.
Definition SecFromTime (t : Z) : Z := (t / msPerSecond) mod 60.
Definition msFromTime (t : Z) : Z := t mod msPerSecond.

(** Decimal digits, a fixed number of them (the fields of the date-time
    string format are of fixed width). *)
Definition digit (n : Z) : ascii := ascii_of_N (48 + Z.to_N (n mod 10)).

Fixpoint pad (w : nat) (n : Z) : string :=
  match w with
  | O => ""
  | S w' => pad w' (n / 10) ++ String (digit n) ""
  end.

(** The number a string of digits writes. *)
Fixpoint read_digits (acc : Z) (s : string) : Z :=
  match s with
  | EmptyString => acc
  | String c s' => read_digits (10 * acc + (Z.of_N (N_of_ascii c) - 48)) s'
  end.

(** [Date.prototype.toISOString]: [YYYY-MM-DDTHH:mm:ss.sssZ], the year
    written with a sign and six digits outside 0..9999. *)
Definition toISOString (t : Z) : string :=
  let y := YearFromTime t in
  let year :=
    if (0 <=? y) && (y <=? 9999) then pad 4 y
    else (if y <? 0 then "-" else "+") ++ pad 6 (Z.abs y) in
  year ++ "-" ++ pad 2 (MonthFromTime t + 1) ++ "-" ++ pad 2 (DateFromTime t)
    ++ "T" ++ pad 2 (HourFromTime t) ++ ":" ++ pad 2 (MinFromTime t)
    ++ ":" ++ pad 2 (SecFromTime t) ++ "." ++ pad 3 (msFromTime t) ++ "Z".

End JsDate.

(** ** JavaScript values: what [JSON.parse] yields, and [undefined] *)

Module Js.

Inductive value : Type :=
| JUndefined
| JNull
| JBool (b : bool)
| JNum (x : float)
| JStr (s : string)
| JArr (items : list value)
| JObj (props : list (string * value)).

(** The own property [k] of an object whose keys are distinct. *)
Fixpoint lookup (k : string) (props : list (string * value)) : option value :=
  match props with
  | [] => None
  | (k', v) :: rest => if String.eqb k k' then Some v else lookup k rest
  end.

(** [v[k]] for a [v] that is neither [null] nor [undefined], and a name
    [k] that no prototype defines and that is no array index (the names
    the server reads are of this kind: amount, phone, access_token, ...). *)
Definition get (v : value) (k : string) : value :=
  match v with
  | JObj props =>
      match lookup k props with
      | Some x => x
      | None => JUndefined
      end
  | _ => JUndefined
  end.

Definition nullish (v : value) : bool :=
  match v with
  | JUndefined | JNull => true
  | _ => false
  end.

(** ToBoolean. *)
Definition truthy (v : value) : bool :=
  match v with
  | JUndefined | JNull => false
  | JBool b => b
  | JNum x => negb (PrimFloat.is_zero x || PrimFloat.is_nan x)
  | JStr s => negb (String.eqb s "")
  | JArr _ | JObj _ => true
  end.

(** [a || b]. *)
Definition or_else (a b : value) : value := if truthy a then a else b.

(** A destructuring default, [{ k = d }]: it applies to [undefined] only. *)
Definition default_to (d v : value) : value :=
  match v with
  | JUndefined => d
  | _ => v
  end.

(** A value of [process.env] as a JavaScript value. *)
Definition of_env (x : option string) : value :=
  match x with
  | Some s => JStr s
  | None => JUndefined
  end.

(** [x || d] for a value [x] of [process.env] and a string [d]. *)
Definition env_or (x : option string) (d : string) : string :=
  match x with
  | Some s => if String.eqb s "" then d else s
  | None => d
  end.

Fixpoint join (sep : string) (parts : list string) : string :=
  match parts with
  | [] => ""
  | [p] => p
  | p :: rest => p ++ sep ++ join sep rest
  end.

Section Builtins.

(** Number::toString, the shortest decimal that reads back as the
    same binary64 value: taken as given. *)
Variable Number_toString : float -> string.

(** ToString, as a template literal applies it. *)
Fixpoint ToString (v : value) : string :=
  match v with
  | JUndefined => "undefined"
  | JNull => "null"
  | JBool b => if b then "true" else "false"
  | JNum x => Number_toString x
  | JStr s => s
  | JArr items =>
      join ","
        (map (fun x => if nullish x then "" else ToString x) items)
  | JObj _ => "[object Object]"
  end.

Definition hex_digit (n : N) : ascii :=
  if (n <? 10)%N then ascii_of_N (48 + n) else ascii_of_N (87 + n).

Definition quote_mark : ascii := ascii_of_N 34.
Definition backslash : ascii := ascii_of_N 92.

(** One character of a string, as QuoteJSONString writes it. *)
Definition escape_char (c : ascii) : string :=
  let n := N_of_ascii c in
  if (n =? 34)%N then String backslash (String quote_mark "")
  else if (n =? 92)%N then String backslash (String backslash "")
  else if (n =? 8)%N then String backslash "b"
  else if (n =? 9)%N then String backslash "t"
  else if (n =? 10)%N then String backslash "n"
  else if (n =? 12)%N then String backslash "f"
  else if (n =? 13)%N then String backslash "r"
  else if (n <? 32)%N then
    String backslash
      (String "u" (String "0" (String "0"
         (String (hex_digit (n / 16)) (String (hex_digit (n mod 16)) "")))))
  else String c "".

Fixpoint escape (s : string) : string :=
  match s with
  | EmptyString => ""
  | String c s' => escape_char c ++ escape s'
  end.

Definition quote (s : string) : string :=
  String quote_mark (escape s ++ String quote_mark "").

(** [JSON.stringify(v)]: a string, or [undefined] for [undefined]. *)
Fixpoint JSON_stringify (v : value) : option string :=
  match v with
  | JUndefined => None
  | JNull => Some "null"
  | JBool b => Some (if b then "true" else "false")
  | JNum x => Some (if PrimFloat.is_finite x then Number_toString x else "null")
  | JStr s => Some (quote s)
  | JArr items =>
      Some ("[" ++ join ","
              (map (fun x => match JSON_stringify x with
                             | Some s => s
                             | None => "null"
                             end) items) ++ "]")
  | JObj props =>
      Some ("{" ++ join ","
              (flat_map (fun kv => match JSON_stringify (snd kv) with
                                   | Some s => [quote (fst kv) ++ ":" ++ s]
                                   | None => []
                                   end) props) ++ "}")
  end.

End Builtins.

End Js.

(** ** Effects of a handler, and a world that answers them *)

Module Effects.
Import Js.

(** What axios hands back: the status line and the parsed body. *)
Record axios_response : Type := { status : Z; data : value }.

(** A thrown value: an [AxiosError] carries the response when the
    upstream answered; a network failure or a [TypeError] carries none. *)
Record js_error : Type := { message : string; response : option axios_response }.

Definition TypeError (msg : string) : js_error :=
  {| message := msg; response := None |}.

Inductive settled (A : Type) : Type :=
| Fulfilled (a : A)
| Rejected (e : js_error).
Arguments Fulfilled {A} a.
Arguments Rejected {A} e.

Definition headers : Type := list (string * string).

Inductive level : Type := Log | Warn | Error.

Inductive prog (A : Type) : Type :=
| Ret (a : A)
| Throw (e : js_error)
| AxiosGet (url : string) (h : headers)
    (k : settled axios_response -> prog A)
| AxiosPost (url : string) (payload : value) (h : headers)
    (k : settled axios_response -> prog A)
| NewDate (k : Z -> prog A)
| Console (l : level) (args : list value) (k : prog A).
Arguments Ret {A} a.
Arguments Throw {A} e.
Arguments AxiosGet {A} url h k.
Arguments AxiosPost {A} url payload h k.
Arguments NewDate {A} k.
Arguments Console {A} l args k.

Fixpoint bind {A B : Type} (p : prog A) (f : A -> prog B) : prog B :=
  match p with
  | Ret a => f a
  | Throw e => Throw e
  | AxiosGet url h k => AxiosGet url h (fun o => bind (k o) f)
  | AxiosPost url payload h k => AxiosPost url payload h (fun o => bind (k o) f)
  | NewDate k => NewDate (fun t => bind (k t) f)
  | Console l args k => Console l args (bind k f)
  end.

(** [try { p } catch (err) { handler err }]. *)
Fixpoint try_catch {A : Type} (p : prog A) (handler : js_error -> prog A) : prog A :=
  match p with
  | Ret a => Ret a
  | Throw e => handler e
  | AxiosGet url h k => AxiosGet url h (fun o => try_catch (k o) handler)
  | AxiosPost url payload h k =>
      AxiosPost url payload h (fun o => try_catch (k o) handler)
  | NewDate k => NewDate (fun t => try_catch (k t) handler)
  | Console l args k => Console l args (try_catch k handler)
  end.

(** [await p] for a promise that axios returns. *)
Definition await {A : Type} (o : settled A) : prog A :=
  match o with
  | Fulfilled a => Ret a
  | Rejected e => Throw e
  end.

Definition axios_get (url : string) (h : headers) : prog axios_response :=
  AxiosGet url h await.
Definition axios_post (url : string) (payload : value) (h : headers)
  : prog axios_response :=
  AxiosPost url payload h await.
Definition new_Date : prog Z := NewDate Ret.
Definition console (l : level) (args : list value) : prog unit :=
  Console l args (Ret tt).

(** An outbound HTTP request. *)
Inductive request : Type :=
| GET (url : string) (h : headers)
| POST (url : string) (payload : value) (h : headers).

(** What a run does, in order. *)
Inductive event : Type :=
| Sent (r : request) (o : settled axios_response)
| Clock (t : Z)
| Printed (l : level) (args : list value).

(** The world answers the [n]-th effect of a run: the network settles a
    request, the clock gives a time value. *)
Record world : Type := {
  net : nat -> request -> settled axios_response;
  clock : nat -> Z
}.

Inductive completion (A : Type) : Type :=
| Normal (a : A)
| Abrupt (e : js_error).
Arguments Normal {A} a.
Arguments Abrupt {A} e.

Fixpoint run {A : Type} (w : world) (n : nat) (p : prog A)
  : list event * completion A :=
  match p with
  | Ret a => ([], Normal a)
  | Throw e => ([], Abrupt e)
  | AxiosGet url h k =>
      let o := net w n (GET url h) in
      let (tr, c) := run w (S n) (k o) in
      (Sent (GET url h) o :: tr, c)
  | AxiosPost url payload h k =>
      let o := net w n (POST url payload h) in
      let (tr, c) := run w (S n) (k o) in
      (Sent (POST url payload h) o :: tr, c)
  | NewDate k =>
      let t := clock w n in
      let (tr, c) := run w (S n) (k t) in
      (Clock t :: tr, c)
  | Console l args k =>
      let (tr, c) := run w (S n) k in
      (Printed l args :: tr, c)
  end.

(** The outbound requests of a trace, in the order they were sent. *)
Fixpoint requests_of (tr : list event) : list request :=
  match tr with
  | [] => []
  | Sent r _ :: rest => r :: requests_of rest
  | _ :: rest => requests_of rest
  end.

(** A run of several programs one after the other in one world: the
    effects are numbered through. *)
Fixpoint run_all {A : Type} (w : world) (n : nat) (ps : list (prog A))
  : list (list event * completion A) :=
  match ps with
  | [] => []
  | p :: rest =>
      let r := run w n p in
      r :: run_all w (n + List.length (fst r)) rest
  end.

End Effects.

(** ** server.js *)

Module Server.
Import Js Effects JsString.

Notation "x <- p ;; q" := (bind p (fun x => q))
  (at level 61, p at next level, right associativity).

(** [process.env], as far as the server reads it. *)
Record env : Type := {
  CONSUMER_KEY : option string;
  CONSUMER_SECRET : option string;
  SHORTCODE : option string;
  PASSKEY : option string;
  BASE_URL : option string;
  CALLBACK_URL : option string;
  PORT : option string
}.

(** What a handler writes to [res]. *)
Record http_reply : Type := { code : Z; body : value }.

(** [res.json(v)] and [res.status(c).json(v)] / [res.status(c).send(v)]. *)
Definition res_json (v : value) : prog http_reply :=
  Ret {| code := 200; body := v |}.
Definition res_status_json (c : Z) (v : value) : prog http_reply :=
  Ret {| code := c; body := v |}.

(** [v.k], which throws when [v] is [null] or [undefined]. *)
Definition member (v : value) (k : string) : prog value :=
  match v with
  | JUndefined =>
      Throw (TypeError ("Cannot read properties of undefined (reading '"
                          ++ k ++ "')"))
  | JNull =>
      Throw (TypeError ("Cannot read properties of null (reading '"
                          ++ k ++ "')"))
  | _ => Ret (get v k)
  end.

(** [const { k, ... } = v] first requires [v] to be coercible to an
    object. *)
Definition destructurable (v : value) (first_key : string) : prog unit :=
  match v with
  | JUndefined =>
      Throw (TypeError ("Cannot destructure property '" ++ first_key
                          ++ "' of 'req.body' as it is undefined."))
  | JNull =>
      Throw (TypeError ("Cannot destructure property '" ++ first_key
                          ++ "' of 'req.body' as it is null."))
  | _ => Ret tt
  end.

(** [err.response?.data]. *)
Definition response_data (err : js_error) : value :=
  match response err with
  | Some r => data r
  | None => JUndefined
  end.

(** [err.response?.data || err.message]. *)
Definition error_detail (err : js_error) : value :=
  or_else (response_data err) (JStr (message err)).

(** The character class [[-:TZ.]]. *)
Definition separator (c : ascii) : bool :=
  (Ascii.eqb c "-" || Ascii.eqb c ":" || Ascii.eqb c "T"
   || Ascii.eqb c "Z" || Ascii.eqb c ".")%char.

(** [new Date().toISOString().replace(/[-:TZ.]/g,'').slice(0,14)] for
    the time value [t] of the new [Date]. *)
Definition timestamp_of (t : Z) : string :=
  slice0 14 (remove_class separator (JsDate.toISOString t)).

Definition sandbox : string := "https://sandbox.safaricom.co.ke".

Section Handlers.

Variable Number_toString : float -> string.
Variable process_env : env.

Definition base_url : string := env_or (BASE_URL process_env) sandbox.

Definition bearer (token : value) : headers :=
  [("Authorization", "Bearer " ++ ToString Number_toString token)].

(** Helper: get OAuth token (client_credentials). *)
Definition getOAuthToken : prog value :=
  let url := base_url ++ "/oauth/v1/generate?grant_type=client_credentials" in
  let auth :=
    Base64.btoa (interpolate_env (CONSUMER_KEY process_env) ++ ":"
                   ++ interpolate_env (CONSUMER_SECRET process_env)) in
  res <- axios_get url [("Authorization", "Basic " ++ auth)] ;;
  member (data res) "access_token".

(** [Buffer.from(`${SHORTCODE}${PASSKEY}${timestamp}`).toString('base64')]. *)
Definition password_of (timestamp : string) : string :=
  Base64.btoa (interpolate_env (SHORTCODE process_env)
                 ++ interpolate_env (PASSKEY process_env) ++ timestamp).

Definition stk_payload (amount phone accountReference description : value)
  (timestamp : string) : value :=
  JObj [("BusinessShortCode", of_env (SHORTCODE process_env));
        ("Password", JStr (password_of timestamp));
        ("Timestamp", JStr timestamp);
        ("TransactionType", JStr "CustomerPayBillOnline");
        ("Amount", amount);
        ("PartyA", phone);
        ("PartyB", of_env (SHORTCODE process_env));
        ("PhoneNumber", phone);
        ("CallBackURL",
          JStr (env_or (CALLBACK_URL process_env)
                  "https://yourdomain.com/callback"));
        ("AccountReference", accountReference);
        ("TransactionDesc", description)].

(** The [catch] block of [/stkpush] and [/c2b/register]. *)
Definition report_failure (err : js_error) : prog http_reply :=
  _ <- console Error [error_detail err] ;;
  res_status_json 500 (JObj [("error", error_detail err)]).

(** [app.post('/stkpush', ...)]. *)
Definition stkpush (req_body : value) : prog http_reply :=
  try_catch
    (_ <- destructurable req_body "amount" ;;
     let amount := get req_body "amount" in
     let phone := get req_body "phone" in
     let accountReference :=
       default_to (JStr "BOOK") (get req_body "accountReference") in
     let description :=
       default_to (JStr "Hotel booking") (get req_body "description") in
     token <- getOAuthToken ;;
     now <- new_Date ;;
     let timestamp := timestamp_of now in
     let payload :=
       stk_payload amount phone accountReference description timestamp in
     let url := base_url ++ "/mpesa/stkpush/v1/processrequest" in
     r <- axios_post url payload (bearer token) ;;
     res_json (data r))
    report_failure.

Definition c2b_payload (confirmationURL validationURL : value) : value :=
  JObj [("ShortCode", of_env (SHORTCODE process_env));
        ("ResponseType", JStr "Completed");
        ("ConfirmationURL", confirmationURL);
        ("ValidationURL", validationURL)].

(** [app.post('/c2b/register', ...)]. *)
Definition c2b_register (req_body : value) : prog http_reply :=
  try_catch
    (_ <- destructurable req_body "confirmationURL" ;;
     let confirmationURL := get req_body "confirmationURL" in
     let validationURL := get req_body "validationURL" in
     token <- getOAuthToken ;;
     let url := base_url ++ "/mpesa/c2b/v1/registerurl" in
     let payload := c2b_payload confirmationURL validationURL in
     r <- axios_post url payload (bearer token) ;;
     res_json (data r))
    report_failure.

Definition accepted : value :=
  JObj [("ResultCode", JNum 0); ("ResultDesc", JStr "Accepted")].

(** [app.post('/callback', ...)]: no [try] around its body. *)
Definition callback (req_body : value) : prog http_reply :=
  text <- match JSON_stringify Number_toString req_body with
          | Some s => Ret s
          | None =>
              Throw (TypeError
                       "Cannot read properties of undefined (reading 'slice')")
          end ;;
  _ <- console Log [JStr "Callback received:"; JStr (slice0 1000 text)] ;;
  res_status_json 200 accepted.

(** [app.get('/token', ...)]. *)
Definition token (req_body : value) : prog http_reply :=
  try_catch
    (token <- getOAuthToken ;;
     res_json (JObj [("access_token", token)]))
    (fun err => res_status_json 500 (JObj [("error", JStr (message err))])).

(** The request of the token exchange. *)
Definition token_request : request :=
  GET (base_url
         ++ "/oauth/v1/generate?grant_type=client_credentials")
    [("Authorization",
       "Basic " ++ Base64.btoa
                     (interpolate_env (CONSUMER_KEY process_env) ++ ":"
                        ++ interpolate_env (CONSUMER_SECRET process_env)))].

(** The push request for a body, a token and a time value. *)
Definition stk_request (req_body token : value) (t : Z) : request :=
  POST (base_url ++ "/mpesa/stkpush/v1/processrequest")
    (stk_payload
       (get req_body "amount") (get req_body "phone")
       (default_to (JStr "BOOK") (get req_body "accountReference"))
       (default_to (JStr "Hotel booking") (get req_body "description"))
       (timestamp_of t))
    (bearer token).

(** The registration request for a body and a token. *)
Definition c2b_request (req_body token : value) : request :=
  POST (base_url ++ "/mpesa/c2b/v1/registerurl")
    (c2b_payload
       (get req_body "confirmationURL") (get req_body "validationURL"))
    (bearer token).

Definition failure_reply (err : js_error) : http_reply :=
  {| code := 500; body := JObj [("error", error_detail err)] |}.

(** The top level of the file: the warning about the environment and
    [app.listen]. *)
Definition unset (x : option string) : bool := negb (truthy (of_env x)).

Definition startup : prog unit :=
  _ <- (if unset (CONSUMER_KEY process_env)
           || unset (CONSUMER_SECRET process_env)
           || unset (SHORTCODE process_env)
           || unset (PASSKEY process_env)
        then console Warn
               [JStr "Missing env vars - please set CONSUMER_KEY, CONSUMER_SECRET, SHORTCODE, PASSKEY"]
        else Ret tt) ;;
  console Log [JStr ("Server listening on " ++ env_or (PORT process_env) "3000")].

(** The routes the file registers on [app]. *)
Definition route (method path : string) : option (value -> prog http_reply) :=
  if String.eqb method "POST" && String.eqb path "/stkpush" then Some stkpush
  else if String.eqb method "POST" && String.eqb path "/c2b/register"
       then Some c2b_register
  else if String.eqb method "POST" && String.eqb path "/callback"
       then Some callback
  else if String.eqb method "GET" && String.eqb path "/token" then Some token
  else None.

End Handlers.

(** An invocation of one of the two routes that need a token. *)
Inductive invocation : Type :=
| PostStkpush (req_body : value)
| PostC2bRegister (req_body : value).

Definition req_body_of (i : invocation) : value :=
  match i with
  | PostStkpush b => b
  | PostC2bRegister b => b
  end.

Definition handle (nts : float -> string) (cfg : env) (i : invocation)
  : prog http_reply :=
  match i with
  | PostStkpush b => stkpush nts cfg b
  | PostC2bRegister b => c2b_register nts cfg b
  end.

(** A trace with one token exchange of its own: it starts with the token
    request, and what follows is nothing, or one POST that is authorized
    by the token this very exchange returned. *)
Definition one_fresh_exchange (nts : float -> string) (cfg : env)
  (tr : list event) : Prop :=
  exists o,
    hd_error tr = Some (Sent (token_request cfg) o) /\
    (requests_of tr = [token_request cfg] \/
     exists resp url payload,
       o = Fulfilled resp /\
       requests_of tr =
         [token_request cfg;
          POST url payload (bearer nts (get (data resp) "access_token"))]).

Definition authorization_of (rq : request) : headers :=
  match rq with
  | GET _ h => h
  | POST _ _ h => h
  end.

End Server.

(** ** Fixtures: an environment and worlds to run the handlers in *)

Module Fixtures.
Import Js Effects Server.
Local Open Scope Z_scope.

(** Number::toString on the values the fixtures print: zeros,
    infinities, NaN and whole numbers; other values are not printed by
    any fixture and are written as a question mark. *)
Definition Number_toString (x : float) : string :=
  match Prim2SF x with
  | S754_zero _ => "0"
  | S754_infinity s => if s then "-Infinity" else "Infinity"
  | S754_nan => "NaN"
  | S754_finite s m e =>
      if 0 <=? e then
        let z := Z.pos m * 2 ^ e in
        NilZero.string_of_int (Z.to_int (if s then - z else z))
      else if Z.pos m mod 2 ^ (- e) =? 0 then
        let z := Z.pos m / 2 ^ (- e) in
        NilZero.string_of_int (Z.to_int (if s then - z else z))
      else "?"
  end.

Definition sandbox_env : env :=
  {| CONSUMER_KEY := Some "key";
     CONSUMER_SECRET := Some "secret";
     SHORTCODE := Some "174379";
     PASSKEY := Some "test";
     BASE_URL := None;
     CALLBACK_URL := None;
     PORT := None |}.

(** 2024-01-01T12:00:00.000Z. *)
Definition noon : Z := 1704110400000.

Definition ok (v : value) : settled axios_response :=
  Fulfilled {| status := 200; data := v |}.

(** Every upstream call succeeds; the token endpoint numbers its tokens
    by the position of the call in the run. *)
Definition fresh_token (n : nat) : value :=
  JStr ("token-" ++ NilZero.string_of_uint (Nat.to_uint n)).

Definition happy : world :=
  {| net := fun n rq =>
              match rq with
              | GET _ _ => ok (JObj [("access_token", fresh_token n);
                                     ("expires_in", JStr "3599")])
              | POST _ _ _ => ok (JObj [("ResponseCode", JStr "0")])
              end;
     clock := fun _ => noon |}.

Definition unauthorized : js_error :=
  {| message := "Request failed with status code 401";
     response :=
       Some {| status := 401;
               data := JObj [("errorCode", JStr "401.002.01");
                             ("errorMessage", JStr "Invalid credentials")] |} |}.

Definition network_down : js_error :=
  {| message := "Network Error"; response := None |}.

(** The token endpoint answers 401. *)
Definition token_refused : world :=
  {| net := fun _ _ => Rejected unauthorized; clock := fun _ => noon |}.

(** The token endpoint answers; the gateway cannot be reached. *)
Definition gateway_down : world :=
  {| net := fun _ rq =>
              match rq with
              | GET _ _ => ok (JObj [("access_token", JStr "abc")])
              | POST _ _ _ => Rejected network_down
              end;
     clock := fun _ => noon |}.

(** The token endpoint answers 200 with a body that has no token. *)
Definition token_missing : world :=
  {| net := fun _ rq =>
              match rq with
              | GET _ _ => ok (JObj [("expires_in", JStr "3599")])
              | POST _ _ _ => ok (JObj [("ResponseCode", JStr "0")])
              end;
     clock := fun _ => noon |}.

Example Number_toString_100 : Number_toString 100 = "100".
Proof. reflexivity. Qed.

End Fixtures.

(** * Facts *)

Ltac Zify.zify_post_hook ::= Z.to_euclidean_division_equations.

(** ** Strings *)

Module JsStringFacts.
Import JsString.

Lemma remove_class_app cls s t :
  remove_class cls (s ++ t) = remove_class cls s ++ remove_class cls t.
Proof.
  induction s as [|c s IH]; simpl; [reflexivity|].
  destruct (cls c); simpl; now rewrite IH.
Qed.

Lemma remove_class_none cls s :
  all_chars (fun c => negb (cls c)) s = true -> remove_class cls s = s.
Proof.
  induction s as [|c s IH]; simpl; [reflexivity|].
  intros H. apply andb_true_iff in H as [Hc Hs].
  apply negb_true_iff in Hc. rewrite Hc. now rewrite IH.
Qed.

Lemma all_chars_app p s t :
  all_chars p (s ++ t) = all_chars p s && all_chars p t.
Proof.
  induction s as [|c s IH]; simpl; [reflexivity|].
  now rewrite IH, andb_assoc.
Qed.

Lemma slice0_app_exact s t :
  slice0 (String.length s) (s ++ t) = s.
Proof. induction s as [|c s IH]; simpl; [now destruct t | now rewrite IH]. Qed.

Lemma length_app s t :
  String.length (s ++ t) = (String.length s + String.length t)%nat.
Proof. induction s as [|c s IH]; simpl; [reflexivity | now rewrite IH]. Qed.

End JsStringFacts.

(** ** Base64 decodes what it encodes *)

Module Base64Facts.
Import Base64.




(** The groups and bytes in terms of division and remainder. *)








(** Every 6-bit group is read back from its character, and no character
    of the alphabet is the padding character. *)







Example btoa_fixture :
  btoa "174379test20240101120000" = "MTc0Mzc5dGVzdDIwMjQwMTAxMTIwMDAw".
Proof. reflexivity. Qed.

Example btoa_padding :
  btoa "a" = "YQ==" /\ btoa "ab" = "YWI=" /\ btoa "abc" = "YWJj".
Proof. repeat split. Qed.

End Base64Facts.

(** ** The calendar *)

Module JsDateFacts.
Import JsDate.
Local Open Scope Z_scope.

Lemma DayFromYear_succ y : DayFromYear (y + 1) = DayFromYear y + DaysInYear y.
Proof.
  unfold DayFromYear, DaysInYear.
  destruct (Z.eqb_spec (y mod 4) 0); cbn [negb];
    [destruct (Z.eqb_spec (y mod 100) 0); cbn [negb];
      [destruct (Z.eqb_spec (y mod 400) 0); cbn [negb]|]|]; lia.
Qed.

Lemma DayFromYear_mono y1 y2 : y1 <= y2 -> DayFromYear y1 <= DayFromYear y2.
Proof. unfold DayFromYear. lia. Qed.

Lemma YearFromTime_bounds t :
  DayFromYear (YearFromTime t) <= Day t < DayFromYear (YearFromTime t + 1).
Proof.
  unfold YearFromTime.
  set (d := Day t). set (y := 1970 + 400 * d / 146097).
  destruct (Z.ltb_spec d (DayFromYear y));
    [|destruct (Z.leb_spec (DayFromYear (y + 1)) d)].
  - replace (y - 1 + 1) with y by lia. split; [|assumption].
    subst y. unfold DayFromYear in *. lia.
  - split; [assumption|]. subst y. unfold DayFromYear in *. lia.
  - split; assumption.
Qed.

(** [YearFromTime t] is the largest year that starts at or before [t]. *)
Lemma TimeFromYear_le y t : TimeFromYear y <= t <-> DayFromYear y <= Day t.
Proof. unfold TimeFromYear, Day, msPerDay. lia. Qed.

Theorem YearFromTime_largest t :
  TimeFromYear (YearFromTime t) <= t /\
  forall y, TimeFromYear y <= t -> y <= YearFromTime t.
Proof.
  pose proof (YearFromTime_bounds t) as [Hlo Hhi]. split.
  - now apply TimeFromYear_le.
  - intros y Hy. apply TimeFromYear_le in Hy.
    destruct (Z.le_gt_cases y (YearFromTime t)) as [|Hgt]; [assumption|].
    pose proof (DayFromYear_mono (YearFromTime t + 1) y ltac:(lia)). lia.
Qed.

Lemma DayWithinYear_bounds t :
  0 <= DayWithinYear t < DaysInYear (YearFromTime t).
Proof.
  pose proof (YearFromTime_bounds t) as H.
  rewrite DayFromYear_succ in H. unfold DayWithinYear. lia.
Qed.

Lemma DaysInYear_cases y : DaysInYear y = 365 \/ DaysInYear y = 366.
Proof.
  unfold DaysInYear.
  destruct (y mod 4 =? 0), (y mod 100 =? 0), (y mod 400 =? 0); cbn; auto.
Qed.

Lemma calendar_fields t :
  0 <= MonthFromTime t <= 11 /\ 1 <= DateFromTime t <= 31.
Proof.
  pose proof (DayWithinYear_bounds t) as Hd.
  unfold DateFromTime, MonthFromTime, InLeapYear in *.
  set (d := DayWithinYear t) in *.
  destruct (DaysInYear_cases (YearFromTime t)) as [E|E]; rewrite E in *;
    cbn [Z.eqb Pos.eqb];
    repeat match goal with
      | |- context [Z.ltb ?a ?b] => destruct (Z.ltb_spec a b)
      end; lia.
Qed.

Lemma clock_fields t :
  0 <= HourFromTime t <= 23 /\ 0 <= MinFromTime t <= 59 /\
  0 <= SecFromTime t <= 59 /\ 0 <= msFromTime t <= 999.
Proof.
  unfold HourFromTime, MinFromTime, SecFromTime, msFromTime, msPerSecond.
  lia.
Qed.

(** The fields give the time value back. *)
Lemma fields_make_time t :
  t = (DayFromYear (YearFromTime t) + DayWithinYear t) * msPerDay
      + HourFromTime t * msPerHour + MinFromTime t * msPerMinute
      + SecFromTime t * msPerSecond + msFromTime t.
Proof.
  unfold DayWithinYear, Day, HourFromTime, MinFromTime, SecFromTime,
    msFromTime, msPerDay, msPerHour, msPerMinute, msPerSecond.
  lia.
Qed.

(** The years 0..9999 are the time values of this interval. *)
Lemma four_digit_year t :
  0 <= YearFromTime t <= 9999 <-> -62167219200000 <= t <= 253402300799999.
Proof.
  pose proof (YearFromTime_bounds t) as [Hlo Hhi].
  assert (E0 : DayFromYear 0 = -719528) by reflexivity.
  assert (E1 : DayFromYear 10000 = 2932897) by reflexivity.
  split.
  - intros [H0 H1].
    pose proof (DayFromYear_mono 0 (YearFromTime t) H0).
    pose proof (DayFromYear_mono (YearFromTime t + 1) 10000 ltac:(lia)).
    unfold Day, msPerDay in *. lia.
  - intros [H0 H1]. split.
    + destruct (Z.le_gt_cases 0 (YearFromTime t)); [assumption|].
      pose proof (DayFromYear_mono (YearFromTime t + 1) 0 ltac:(lia)).
      unfold Day, msPerDay in *. lia.
    + destruct (Z.le_gt_cases (YearFromTime t) 9999); [assumption|].
      pose proof (DayFromYear_mono 10000 (YearFromTime t) ltac:(lia)).
      unfold Day, msPerDay in *. lia.
Qed.

(** A [Date] holds time values up to [maxTimeValue] in absolute value:
    its years have at most six digits. *)
Lemma YearFromTime_range t :
  - maxTimeValue <= t <= maxTimeValue ->
  -271821 <= YearFromTime t <= 275760.
Proof.
  pose proof (YearFromTime_bounds t) as [Hlo Hhi].
  assert (E0 : DayFromYear (-271821) = -100000109) by reflexivity.
  assert (E1 : DayFromYear 275761 = 100000110) by reflexivity.
  unfold maxTimeValue. intros [H0 H1]. split.
  - destruct (Z.le_gt_cases (-271821) (YearFromTime t)); [assumption|].
    pose proof (DayFromYear_mono (YearFromTime t + 1) (-271821) ltac:(lia)).
    unfold Day, msPerDay in *. lia.
  - destruct (Z.le_gt_cases (YearFromTime t) 275760); [assumption|].
    pose proof (DayFromYear_mono 275761 (YearFromTime t) ltac:(lia)).
    unfold Day, msPerDay in *. lia.
Qed.

(** Digits. *)
Lemma digit_is_digit n : JsString.is_digit (digit n) = true.
Proof.
  unfold JsString.is_digit, digit.
  rewrite N_ascii_embedding by lia.
  apply andb_true_iff. split; apply N.leb_le; lia.
Qed.

Lemma length_pad w n : String.length (pad w n) = w.
Proof.
  revert n. induction w as [|w IH]; intros n; cbn [pad]; [reflexivity|].
  rewrite JsStringFacts.length_app, IH. cbn. lia.
Qed.

Lemma pad_digits w n : JsString.all_chars JsString.is_digit (pad w n) = true.
Proof.
  revert n. induction w as [|w IH]; intros n; cbn [pad]; [reflexivity|].
  rewrite JsStringFacts.all_chars_app, IH. cbn. now rewrite digit_is_digit.
Qed.

Example toISOString_2024 :
  toISOString 1704110400000 = "2024-01-01T12:00:00.000Z".
Proof. reflexivity. Qed.

Example toISOString_leap_day :
  toISOString 951827696789 = "2000-02-29T12:34:56.789Z".
Proof. reflexivity. Qed.

Example toISOString_before_epoch :
  toISOString (-1) = "1969-12-31T23:59:59.999Z".
Proof. reflexivity. Qed.

Example toISOString_year_10000 :
  toISOString 253402300800000 = "+010000-01-01T00:00:00.000Z".
Proof. reflexivity. Qed.

End JsDateFacts.

(** ** Running programs *)

Module EffectsFacts.
Import Js Effects.

Lemma run_bind {A B : Type} (w : world) (p : prog A) (f : A -> prog B) n :
  run w n (bind p f) =
  match run w n p with
  | (tr, Normal a) =>
      let (tr', c) := run w (n + List.length tr) (f a) in ((tr ++ tr')%list, c)
  | (tr, Abrupt e) => (tr, Abrupt e)
  end.
Proof.
  revert n.
  induction p as [a|e|url h k IH|url payload h k IH|k IH|l args k IH];
    intros n; cbn [bind run].
  - rewrite Nat.add_0_r. now destruct (run w n (f a)).
  - reflexivity.
  - rewrite IH. destruct (run w (S n) (k _)) as [tr [a|e]]; cbn [List.length];
      [|reflexivity].
    rewrite <- plus_n_Sm. now destruct (run w _ (f a)).
  - rewrite IH. destruct (run w (S n) (k _)) as [tr [a|e]]; cbn [List.length];
      [|reflexivity].
    rewrite <- plus_n_Sm. now destruct (run w _ (f a)).
  - rewrite IH. destruct (run w (S n) (k _)) as [tr [a|e]]; cbn [List.length];
      [|reflexivity].
    rewrite <- plus_n_Sm. now destruct (run w _ (f a)).
  - rewrite IH. destruct (run w (S n) k) as [tr [a|e]]; cbn [List.length];
      [|reflexivity].
    rewrite <- plus_n_Sm. now destruct (run w _ (f a)).
Qed.

Lemma run_try_catch {A : Type} (w : world) (p : prog A) handler n :
  run w n (try_catch p handler) =
  match run w n p with
  | (tr, Normal a) => (tr, Normal a)
  | (tr, Abrupt e) =>
      let (tr', c) := run w (n + List.length tr) (handler e) in ((tr ++ tr')%list, c)
  end.
Proof.
  revert n.
  induction p as [a|e|url h k IH|url payload h k IH|k IH|l args k IH];
    intros n; cbn [try_catch run].
  - reflexivity.
  - rewrite Nat.add_0_r. now destruct (run w n (handler e)).
  - rewrite IH. destruct (run w (S n) (k _)) as [tr [a|e]]; cbn [List.length];
      [reflexivity|].
    rewrite <- plus_n_Sm. now destruct (run w _ (handler e)).
  - rewrite IH. destruct (run w (S n) (k _)) as [tr [a|e]]; cbn [List.length];
      [reflexivity|].
    rewrite <- plus_n_Sm. now destruct (run w _ (handler e)).
  - rewrite IH. destruct (run w (S n) (k _)) as [tr [a|e]]; cbn [List.length];
      [reflexivity|].
    rewrite <- plus_n_Sm. now destruct (run w _ (handler e)).
  - rewrite IH. destruct (run w (S n) k) as [tr [a|e]]; cbn [List.length];
      [reflexivity|].
    rewrite <- plus_n_Sm. now destruct (run w _ (handler e)).
Qed.

Lemma requests_of_app tr1 tr2 :
  requests_of (tr1 ++ tr2)%list = (requests_of tr1 ++ requests_of tr2)%list.
Proof.
  induction tr1 as [|[r o|t|l args] tr1 IH]; cbn; [reflexivity| |assumption..].
  now rewrite IH.
Qed.

End EffectsFacts.

(** ** The timestamp of a push request *)

Module TimestampFacts.
Import JsString JsStringFacts JsDate JsDateFacts Server.
Local Open Scope Z_scope.

Lemma append_assoc (a b c : string) : ((a ++ b) ++ c = a ++ b ++ c)%string.
Proof. induction a as [|x a IH]; cbn; [reflexivity | now rewrite IH]. Qed.

Lemma digit_not_separator c : is_digit c = true -> separator c = false.
Proof. destruct c as [[] [] [] [] [] [] [] []]; cbn; congruence. Qed.

Lemma all_chars_weaken (p q : ascii -> bool) s :
  (forall c, p c = true -> q c = true) ->
  all_chars p s = true -> all_chars q s = true.
Proof.
  intros Hpq. induction s as [|c s IH]; cbn; [reflexivity|].
  intros H. apply andb_true_iff in H as [Hc Hs].
  now rewrite (Hpq c Hc), IH.
Qed.

Lemma remove_separators_pad w n : remove_class separator (pad w n) = pad w n.
Proof.
  apply remove_class_none.
  apply (all_chars_weaken is_digit); [|apply pad_digits].
  intros c Hc. now rewrite digit_not_separator.
Qed.

Lemma read_digits_app acc s u :
  read_digits acc (s ++ u) = read_digits (read_digits acc s) u.
Proof. revert acc. induction s as [|c s IH]; intros acc; cbn; auto. Qed.

Lemma read_digits_pad w n : read_digits 0 (pad w n) = n mod 10 ^ Z.of_nat w.
Proof.
  revert n. induction w as [|w IH]; intros n.
  - cbn. now rewrite Z.mod_1_r.
  - cbn [pad]. rewrite read_digits_app, IH. cbn [read_digits].
    unfold digit. rewrite N_ascii_embedding by lia.
    rewrite Nat2Z.inj_succ, Z.pow_succ_r by lia.
    rewrite Z.rem_mul_r by lia. lia.
Qed.

Lemma read_digits_pad_small w n :
  0 <= n < 10 ^ Z.of_nat w -> read_digits 0 (pad w n) = n.
Proof. intros H. rewrite read_digits_pad. now apply Z.mod_small. Qed.

(** In a four-digit year every field fits its width: the digits of the
    timestamp read back as the fields of the instant. *)
Lemma fields_read_back t :
  0 <= YearFromTime t <= 9999 ->
  read_digits 0 (pad 4 (YearFromTime t)) = YearFromTime t /\
  read_digits 0 (pad 2 (MonthFromTime t + 1)) = MonthFromTime t + 1 /\
  read_digits 0 (pad 2 (DateFromTime t)) = DateFromTime t /\
  read_digits 0 (pad 2 (HourFromTime t)) = HourFromTime t /\
  read_digits 0 (pad 2 (MinFromTime t)) = MinFromTime t /\
  read_digits 0 (pad 2 (SecFromTime t)) = SecFromTime t.
Proof.
  intros Hy.
  pose proof (calendar_fields t) as [Hm Hd].
  pose proof (clock_fields t) as (Hh & Hmi & Hs & _).
  repeat split; apply read_digits_pad_small;
    (change (10 ^ Z.of_nat 4) with 10000 || change (10 ^ Z.of_nat 2) with 100);
    lia.
Qed.

Lemma timestamp_of_four_digit_year t :
  0 <= YearFromTime t <= 9999 ->
  timestamp_of t =
    (pad 4 (YearFromTime t) ++ pad 2 (MonthFromTime t + 1)
       ++ pad 2 (DateFromTime t) ++ pad 2 (HourFromTime t)
       ++ pad 2 (MinFromTime t) ++ pad 2 (SecFromTime t))%string.
Proof.
  intros [H0 H1]. unfold timestamp_of, toISOString.
  replace ((0 <=? YearFromTime t) && (YearFromTime t <=? 9999)) with true
    by (symmetry; apply andb_true_iff; split; apply Z.leb_le; assumption).
  cbv zeta. rewrite !remove_class_app, !remove_separators_pad.
  change (remove_class separator "-") with "".
  change (remove_class separator "T") with "".
  change (remove_class separator ":") with "".
  change (remove_class separator ".") with "".
  change (remove_class separator "Z") with "".
  cbn [append].
  set (y := pad 4 _). set (mo := pad 2 (MonthFromTime t + 1)).
  set (d := pad 2 (DateFromTime t)). set (h := pad 2 (HourFromTime t)).
  set (mi := pad 2 (MinFromTime t)). set (se := pad 2 (SecFromTime t)).
  set (ms := (pad 3 _ ++ "")%string).
  replace (y ++ mo ++ d ++ h ++ mi ++ se ++ ms)%string
    with ((y ++ mo ++ d ++ h ++ mi ++ se) ++ ms)%string
    by now rewrite !append_assoc.
  replace 14%nat with (String.length (y ++ mo ++ d ++ h ++ mi ++ se))
    by (subst y mo d h mi se; now rewrite !length_app, !length_pad).
  apply slice0_app_exact.
Qed.

End TimestampFacts.

(** ** The handlers, run in a world *)

Module ServerFacts.
Import Js Effects EffectsFacts JsString Server.

Lemma member_ok v k : nullish v = false -> member v k = Ret (get v k).
Proof. now destruct v. Qed.

Lemma destructurable_ok v k : nullish v = false -> destructurable v k = Ret tt.
Proof. now destruct v. Qed.

Lemma get_object props k v :
  lookup k props = Some v -> get (JObj props) k = v.
Proof. intros H. cbn. now rewrite H. Qed.

Lemma get_absent props k :
  lookup k props = None -> get (JObj props) k = JUndefined.
Proof. intros H. cbn. now rewrite H. Qed.

Section Runs.

Variable Number_toString : float -> string.
Variable process_env : env.
Variable w : world.

Local Abbreviation token_request := (Server.token_request process_env).
Local Abbreviation stk_request := (Server.stk_request Number_toString process_env).
Local Abbreviation c2b_request := (Server.c2b_request Number_toString process_env).

Lemma run_getOAuthToken_fulfilled n resp :
  net w n token_request = Fulfilled resp ->
  nullish (data resp) = false ->
  run w n (getOAuthToken process_env) =
  ([Sent token_request (Fulfilled resp)],
   Normal (get (data resp) "access_token")).
Proof.
  intros Hnet Hdata. unfold Server.token_request in Hnet.
  unfold getOAuthToken, axios_get. cbn [bind run]. rewrite Hnet.
  cbn [await bind]. rewrite member_ok by assumption. reflexivity.
Qed.

Lemma run_getOAuthToken_rejected n err :
  net w n token_request = Rejected err ->
  run w n (getOAuthToken process_env) =
  ([Sent token_request (Rejected err)], Abrupt err).
Proof.
  intros Hnet. unfold Server.token_request in Hnet.
  unfold getOAuthToken, axios_get. cbn [bind run]. rewrite Hnet.
  reflexivity.
Qed.

Lemma run_stkpush_token_rejected n req_body err :
  nullish req_body = false ->
  net w n token_request = Rejected err ->
  run w n (stkpush Number_toString process_env req_body) =
  ([Sent token_request (Rejected err); Printed Error [error_detail err]],
   Normal (failure_reply err)).
Proof.
  intros Hbody Hnet. unfold stkpush.
  rewrite run_try_catch, run_bind, destructurable_ok by assumption.
  cbn [run]. rewrite run_bind, Nat.add_0_r.
  rewrite (run_getOAuthToken_rejected _ _ Hnet). reflexivity.
Qed.

Lemma run_stkpush_token_fulfilled n req_body resp :
  nullish req_body = false ->
  net w n token_request = Fulfilled resp ->
  nullish (data resp) = false ->
  let token := get (data resp) "access_token" in
  let t := clock w (S n) in
  let rq := stk_request req_body token t in
  run w n (stkpush Number_toString process_env req_body) =
  match net w (S (S n)) rq with
  | Fulfilled r =>
      ([Sent token_request (Fulfilled resp); Clock t; Sent rq (Fulfilled r)],
       Normal {| code := 200; body := data r |})
  | Rejected err =>
      ([Sent token_request (Fulfilled resp); Clock t; Sent rq (Rejected err);
        Printed Error [error_detail err]],
       Normal (failure_reply err))
  end.
Proof.
  intros Hbody Hnet Hdata token t rq. unfold stkpush.
  rewrite run_try_catch, run_bind, destructurable_ok by assumption.
  cbn [run]. rewrite run_bind, Nat.add_0_r.
  rewrite (run_getOAuthToken_fulfilled _ _ Hnet Hdata).
  cbn [List.length]. rewrite Nat.add_1_r.
  cbn [new_Date axios_post bind run].
  subst rq t token. unfold Server.stk_request.
  now destruct (net w (S (S n)) _).
Qed.

Lemma run_c2b_register_token_rejected n req_body err :
  nullish req_body = false ->
  net w n token_request = Rejected err ->
  run w n (c2b_register Number_toString process_env req_body) =
  ([Sent token_request (Rejected err); Printed Error [error_detail err]],
   Normal (failure_reply err)).
Proof.
  intros Hbody Hnet. unfold c2b_register.
  rewrite run_try_catch, run_bind, destructurable_ok by assumption.
  cbn [run]. rewrite run_bind, Nat.add_0_r.
  rewrite (run_getOAuthToken_rejected _ _ Hnet). reflexivity.
Qed.

Lemma run_c2b_register_token_fulfilled n req_body resp :
  nullish req_body = false ->
  net w n token_request = Fulfilled resp ->
  nullish (data resp) = false ->
  let rq := c2b_request req_body (get (data resp) "access_token") in
  run w n (c2b_register Number_toString process_env req_body) =
  match net w (S n) rq with
  | Fulfilled r =>
      ([Sent token_request (Fulfilled resp); Sent rq (Fulfilled r)],
       Normal {| code := 200; body := data r |})
  | Rejected err =>
      ([Sent token_request (Fulfilled resp); Sent rq (Rejected err);
        Printed Error [error_detail err]],
       Normal (failure_reply err))
  end.
Proof.
  intros Hbody Hnet Hdata rq. unfold c2b_register.
  rewrite run_try_catch, run_bind, destructurable_ok by assumption.
  cbn [run]. rewrite run_bind, Nat.add_0_r.
  rewrite (run_getOAuthToken_fulfilled _ _ Hnet Hdata).
  cbn [List.length]. rewrite Nat.add_1_r.
  cbn [axios_post bind run].
  subst rq. unfold Server.c2b_request.
  now destruct (net w (S n) _).
Qed.

(** A token response whose body is [null] or [undefined] makes the
    property read throw; the [catch] block answers. *)
Lemma run_getOAuthToken_nullish n resp :
  net w n token_request = Fulfilled resp ->
  nullish (data resp) = true ->
  exists err,
    response err = None /\
    run w n (getOAuthToken process_env) =
    ([Sent token_request (Fulfilled resp)], Abrupt err).
Proof.
  intros Hnet Hdata. unfold Server.token_request in Hnet.
  unfold getOAuthToken, axios_get. cbn [bind run]. rewrite Hnet.
  cbn [await bind].
  destruct (data resp); try discriminate;
    (eexists; split; [|reflexivity]; reflexivity).
Qed.

Lemma run_token_fulfilled n req_body resp :
  net w n token_request = Fulfilled resp ->
  nullish (data resp) = false ->
  run w n (token process_env req_body) =
  ([Sent token_request (Fulfilled resp)],
   Normal {| code := 200;
             body := JObj [("access_token",
                             get (data resp) "access_token")] |}).
Proof.
  intros Hnet Hdata. unfold token.
  rewrite run_try_catch, run_bind.
  rewrite (run_getOAuthToken_fulfilled _ _ Hnet Hdata). reflexivity.
Qed.

Lemma run_token_rejected n req_body err :
  net w n token_request = Rejected err ->
  run w n (token process_env req_body) =
  ([Sent token_request (Rejected err)],
   Normal {| code := 500; body := JObj [("error", JStr (message err))] |}).
Proof.
  intros Hnet. unfold token.
  rewrite run_try_catch, run_bind.
  rewrite (run_getOAuthToken_rejected _ _ Hnet). reflexivity.
Qed.

Lemma JSON_stringify_defined v :
  v <> JUndefined -> exists s, JSON_stringify Number_toString v = Some s.
Proof. destruct v; cbn; intros H; eauto. congruence. Qed.

Lemma run_callback n req_body text :
  JSON_stringify Number_toString req_body = Some text ->
  run w n (callback Number_toString req_body) =
  ([Printed Log [JStr "Callback received:"; JStr (slice0 1000 text)]],
   Normal {| code := 200; body := accepted |}).
Proof. intros H. unfold callback. rewrite H. reflexivity. Qed.

Lemma run_stkpush_token_nullish n req_body resp :
  nullish req_body = false ->
  net w n token_request = Fulfilled resp ->
  nullish (data resp) = true ->
  exists err,
    response err = None /\
    run w n (stkpush Number_toString process_env req_body) =
    ([Sent token_request (Fulfilled resp); Printed Error [error_detail err]],
     Normal (failure_reply err)).
Proof.
  intros Hbody Hnet Hdata.
  destruct (run_getOAuthToken_nullish _ _ Hnet Hdata) as (err & Herr & Hrun).
  exists err. split; [assumption|]. unfold stkpush.
  rewrite run_try_catch, run_bind, destructurable_ok by assumption.
  cbn [run]. rewrite run_bind, Nat.add_0_r, Hrun. reflexivity.
Qed.

Lemma run_c2b_register_token_nullish n req_body resp :
  nullish req_body = false ->
  net w n token_request = Fulfilled resp ->
  nullish (data resp) = true ->
  exists err,
    response err = None /\
    run w n (c2b_register Number_toString process_env req_body) =
    ([Sent token_request (Fulfilled resp); Printed Error [error_detail err]],
     Normal (failure_reply err)).
Proof.
  intros Hbody Hnet Hdata.
  destruct (run_getOAuthToken_nullish _ _ Hnet Hdata) as (err & Herr & Hrun).
  exists err. split; [assumption|]. unfold c2b_register.
  rewrite run_try_catch, run_bind, destructurable_ok by assumption.
  cbn [run]. rewrite run_bind, Nat.add_0_r, Hrun. reflexivity.
Qed.

End Runs.

End ServerFacts.

(** ** The properties of the specification *)

Module Properties.
Import Js Effects EffectsFacts JsString JsStringFacts JsDate JsDateFacts.
Import Server ServerFacts TimestampFacts.



(** C2 (as amended).  For every instant whose UTC year is between 0 and
    9999, the timestamp is the fields year, month, day, hour, minute and
    second of the instant, written with 4, 2, 2, 2, 2 and 2 digits: 14
    characters, all of them digits. *)
Theorem timestamp_decomposition (t : Z) :
  (0 <= YearFromTime t <= 9999)%Z ->
  timestamp_of t =
    pad 4 (YearFromTime t) ++ pad 2 (MonthFromTime t + 1)
      ++ pad 2 (DateFromTime t) ++ pad 2 (HourFromTime t)
      ++ pad 2 (MinFromTime t) ++ pad 2 (SecFromTime t) /\
  String.length (timestamp_of t) = 14%nat /\
  all_chars is_digit (timestamp_of t) = true.
Proof.
  intros Hy. rewrite (timestamp_of_four_digit_year t Hy).
  split; [reflexivity|]. split.
  - now rewrite !length_app, !length_pad.
  - now rewrite !all_chars_app, !pad_digits.
Qed.

Lemma timestamp_decomposition_witness :
  timestamp_of Fixtures.noon = "20240101120000" /\
  String.length (timestamp_of Fixtures.noon) = 14%nat /\
  all_chars is_digit (timestamp_of Fixtures.noon) = true.
Proof.
  apply (timestamp_decomposition Fixtures.noon). vm_compute.
  split; discriminate.
Defined.

(** C2, as stated, fails at the first instant of the year 10000: the ISO
    rendering starts with a plus sign, which the replacement keeps, so
    the 14 characters are not all digits. *)
Lemma timestamp_year_10000 :
  timestamp_of 253402300800000 = "+0100000101000" /\
  all_chars is_digit (timestamp_of 253402300800000) = false.
Proof. split; reflexivity. Qed.



(** What [initiatePush(100, "254712345678")] sends, in full. *)
Example stkpush_100 :
  run Fixtures.happy 0
    (stkpush Fixtures.Number_toString Fixtures.sandbox_env
       (JObj [("amount", JNum 100); ("phone", JStr "254712345678")]))
  = ([Sent (token_request Fixtures.sandbox_env)
        (Fixtures.ok (JObj [("access_token", JStr "token-0");
                            ("expires_in", JStr "3599")]));
      Clock Fixtures.noon;
      Sent (POST "https://sandbox.safaricom.co.ke/mpesa/stkpush/v1/processrequest"
              (JObj [("BusinessShortCode", JStr "174379");
                     ("Password", JStr "MTc0Mzc5dGVzdDIwMjQwMTAxMTIwMDAw");
                     ("Timestamp", JStr "20240101120000");
                     ("TransactionType", JStr "CustomerPayBillOnline");
                     ("Amount", JNum 100);
                     ("PartyA", JStr "254712345678");
                     ("PartyB", JStr "174379");
                     ("PhoneNumber", JStr "254712345678");
                     ("CallBackURL", JStr "https://yourdomain.com/callback");
                     ("AccountReference", JStr "BOOK");
                     ("TransactionDesc", JStr "Hotel booking")])
              [("Authorization", "Bearer token-0")])
        (Fixtures.ok (JObj [("ResponseCode", JStr "0")]))],
     Normal {| code := 200; body := JObj [("ResponseCode", JStr "0")] |}).
Proof. reflexivity. Qed.

(** C4.  For every JSON body, the empty object included, [/callback]
    answers 200 with [{ResultCode: 0, ResultDesc: "Accepted"}]: the run
    prints one line, sends nothing and does not throw. *)
Theorem callback_always_accepted
  (nts : float -> string) (w : world) (n : nat) (req_body : value) :
  req_body <> JUndefined ->
  exists text,
    run w n (callback nts req_body) =
    ([Printed Log [JStr "Callback received:"; JStr text]],
     Normal {| code := 200;
               body := JObj [("ResultCode", JNum 0);
                             ("ResultDesc", JStr "Accepted")] |}).
Proof.
  intros Hbody.
  destruct (JSON_stringify_defined nts req_body Hbody) as [text Htext].
  exists (slice0 1000 text). now apply run_callback.
Qed.

Lemma callback_always_accepted_witness :
  exists text,
    run Fixtures.happy 0 (callback Fixtures.Number_toString (JObj [])) =
    ([Printed Log [JStr "Callback received:"; JStr text]],
     Normal {| code := 200;
               body := JObj [("ResultCode", JNum 0);
                             ("ResultDesc", JStr "Accepted")] |}).
Proof.
  apply (callback_always_accepted Fixtures.Number_toString Fixtures.happy 0
           (JObj [])).
  discriminate.
Defined.

Example callback_logs_the_body :
  fst (run Fixtures.happy 0
         (callback Fixtures.Number_toString
            (JObj [("Body", JObj [("ResultCode", JNum 0);
                                  ("Items", JArr [JStr "a"; JNull; JBool true])])])))
  = [Printed Log
       [JStr "Callback received:";
        JStr (String.concat ""
                ["{"; quote "Body"; ":{"; quote "ResultCode"; ":0,";
                 quote "Items"; ":["; quote "a"; ",null,true]}}"])]].
Proof. reflexivity. Qed.



(** A 401 from the token endpoint, and a gateway that cannot be reached. *)
Example stkpush_token_401 :
  run Fixtures.token_refused 0
    (stkpush Fixtures.Number_toString Fixtures.sandbox_env
       (JObj [("amount", JNum 100); ("phone", JStr "254712345678")]))
  = ([Sent (token_request Fixtures.sandbox_env) (Rejected Fixtures.unauthorized);
      Printed Error [JObj [("errorCode", JStr "401.002.01");
                           ("errorMessage", JStr "Invalid credentials")]]],
     Normal {| code := 500;
               body := JObj [("error",
                               JObj [("errorCode", JStr "401.002.01");
                                     ("errorMessage",
                                       JStr "Invalid credentials")])] |}).
Proof. reflexivity. Qed.

Example stkpush_gateway_down :
  snd (run Fixtures.gateway_down 0
         (stkpush Fixtures.Number_toString Fixtures.sandbox_env
            (JObj [("amount", JNum 100); ("phone", JStr "254712345678")])))
  = Normal {| code := 500; body := JObj [("error", JStr "Network Error")] |}.
Proof. reflexivity. Qed.

(** C7.  [getOAuthToken] sends one GET to
    [{baseURL}/oauth/v1/generate?grant_type=client_credentials] with the
    header [Authorization: Basic base64(consumerKey:consumerSecret)], and
    on a 200 answer returns the [access_token] of the body as it is. *)
Theorem getOAuthToken_exchange
  (cfg : env) (w : world) (n : nat) (key secret : string)
  (resp : axios_response) (props : list (string * value)) (token : value) :
  CONSUMER_KEY cfg = Some key ->
  CONSUMER_SECRET cfg = Some secret ->
  let rq :=
    GET (env_or (BASE_URL cfg) "https://sandbox.safaricom.co.ke"
           ++ "/oauth/v1/generate?grant_type=client_credentials")
      [("Authorization", "Basic " ++ Base64.btoa (key ++ ":" ++ secret))] in
  net w n rq = Fulfilled resp ->
  status resp = 200%Z ->
  data resp = JObj props ->
  lookup "access_token" props = Some token ->
  run w n (getOAuthToken cfg) = ([Sent rq (Fulfilled resp)], Normal token).
Proof.
  intros Hkey Hsecret rq Hnet _ Hdata Htoken.
  assert (Hrq : token_request cfg = rq).
  { unfold token_request, rq, base_url, sandbox.
    now rewrite Hkey, Hsecret. }
  rewrite <- Hrq in *.
  rewrite (run_getOAuthToken_fulfilled cfg w n resp Hnet)
    by now rewrite Hdata.
  rewrite Hdata, (get_object _ _ _ Htoken). reflexivity.
Qed.

Lemma getOAuthToken_exchange_witness :
  run Fixtures.happy 4 (getOAuthToken Fixtures.sandbox_env) =
  ([Sent (GET "https://sandbox.safaricom.co.ke/oauth/v1/generate?grant_type=client_credentials"
            [("Authorization", "Basic a2V5OnNlY3JldA==")])
      (Fulfilled {| status := 200;
                    data := JObj [("access_token", JStr "token-4");
                                  ("expires_in", JStr "3599")] |})],
   Normal (JStr "token-4")).
Proof.
  apply (getOAuthToken_exchange Fixtures.sandbox_env Fixtures.happy 4
           "key" "secret"
           {| status := 200;
              data := JObj [("access_token", JStr "token-4");
                            ("expires_in", JStr "3599")] |}
           [("access_token", JStr "token-4"); ("expires_in", JStr "3599")]
           (JStr "token-4"));
    reflexivity.
Defined.

Lemma handle_one_fresh_exchange nts cfg w n i :
  nullish (req_body_of i) = false ->
  one_fresh_exchange nts cfg (fst (run w n (handle nts cfg i))).
Proof.
  intros Hbody. unfold one_fresh_exchange.
  destruct (net w n (token_request cfg)) as [resp|err] eqn:Hnet.
  - destruct (nullish (data resp)) eqn:Hdata.
    + exists (Fulfilled resp). destruct i as [b|b]; cbn [handle req_body_of] in *.
      * destruct (run_stkpush_token_nullish nts cfg w n b resp Hbody Hnet Hdata)
          as (err & _ & ->). cbn. auto.
      * destruct (run_c2b_register_token_nullish nts cfg w n b resp
                    Hbody Hnet Hdata) as (err & _ & ->). cbn. auto.
    + exists (Fulfilled resp). destruct i as [b|b]; cbn [handle req_body_of] in *.
      * rewrite (run_stkpush_token_fulfilled nts cfg w n b resp Hbody Hnet Hdata).
        cbv zeta. unfold stk_request.
        destruct (net w (S (S n)) _); cbn [fst hd_error requests_of];
          split; try reflexivity; right; eauto.
      * rewrite (run_c2b_register_token_fulfilled nts cfg w n b resp
                   Hbody Hnet Hdata).
        cbv zeta. unfold c2b_request.
        destruct (net w (S n) _); cbn [fst hd_error requests_of];
          split; try reflexivity; right; eauto.
  - exists (Rejected err). destruct i as [b|b]; cbn [handle req_body_of] in *.
    + rewrite (run_stkpush_token_rejected nts cfg w n b err Hbody Hnet).
      cbn. auto.
    + rewrite (run_c2b_register_token_rejected nts cfg w n b err Hbody Hnet).
      cbn. auto.
Qed.

(** C6.  No token is kept from one request to the next: in any sequence
    of invocations of [/stkpush] and [/c2b/register], every invocation
    starts with a token exchange of its own, performs no other, and
    authorizes its gateway call with the token that exchange returned.
    The handlers are functions of the environment, which they only
    read. *)
Theorem token_exchange_per_invocation
  (nts : float -> string) (cfg : env) (w : world) (n : nat)
  (invocations : list invocation) :
  Forall (fun i => nullish (req_body_of i) = false) invocations ->
  List.length (run_all w n (map (handle nts cfg) invocations))
    = List.length invocations /\
  Forall (fun r => one_fresh_exchange nts cfg (fst r))
    (run_all w n (map (handle nts cfg) invocations)).
Proof.
  intros Hbodies. revert n.
  induction Hbodies as [|i rest Hi _ IH]; intros n; cbn [map run_all].
  - split; [reflexivity | constructor].
  - destruct (IH (n + List.length (fst (run w n (handle nts cfg i)))))
      as [Hlen Hall].
    split.
    + cbn [List.length]. now rewrite Hlen.
    + constructor; [|exact Hall].
      now apply handle_one_fresh_exchange.
Qed.

Lemma token_exchange_per_invocation_witness :
  Forall (fun r => one_fresh_exchange Fixtures.Number_toString
                     Fixtures.sandbox_env (fst r))
    (run_all Fixtures.happy 0
       (map (handle Fixtures.Number_toString Fixtures.sandbox_env)
          [PostStkpush (JObj [("amount", JNum 100);
                              ("phone", JStr "254712345678")]);
           PostC2bRegister (JObj []);
           PostStkpush (JObj [("amount", JNum 5);
                              ("phone", JStr "254700000000")])])).
Proof.
  apply (token_exchange_per_invocation Fixtures.Number_toString
           Fixtures.sandbox_env Fixtures.happy 0
           [PostStkpush (JObj [("amount", JNum 100);
                               ("phone", JStr "254712345678")]);
            PostC2bRegister (JObj []);
            PostStkpush (JObj [("amount", JNum 5);
                               ("phone", JStr "254700000000")])]).
  repeat constructor.
Defined.

(** Three invocations in a world whose token endpoint never gives the
    same token twice: each gateway call carries the token of its own
    exchange. *)
Example tokens_are_not_reused :
  map (fun r => map authorization_of (requests_of (fst r)))
    (run_all Fixtures.happy 0
       (map (handle Fixtures.Number_toString Fixtures.sandbox_env)
          [PostStkpush (JObj [("amount", JNum 100);
                              ("phone", JStr "254712345678")]);
           PostC2bRegister (JObj []);
           PostStkpush (JObj [("amount", JNum 5);
                              ("phone", JStr "254700000000")])]))
  = [[[("Authorization", "Basic a2V5OnNlY3JldA==")];
      [("Authorization", "Bearer token-0")]];
     [[("Authorization", "Basic a2V5OnNlY3JldA==")];
      [("Authorization", "Bearer token-3")]];
     [[("Authorization", "Basic a2V5OnNlY3JldA==")];
      [("Authorization", "Bearer token-5")]]].
Proof. reflexivity. Qed.

Example routes (nts : float -> string) (cfg : env) :
  route nts cfg "POST" "/stkpush" = Some (stkpush nts cfg) /\
  route nts cfg "POST" "/c2b/register" = Some (c2b_register nts cfg) /\
  route nts cfg "POST" "/callback" = Some (callback nts) /\
  route nts cfg "GET" "/token" = Some (token cfg) /\
  route nts cfg "GET" "/stkpush" = None.
Proof. repeat split. Qed.



(** C9.  [GET /token] answers 500 with an [error] field when the token
    exchange is rejected, and 200 with [{access_token}] when it succeeds.
    The [error] is always the message of the error: this route does not
    look at the body of the upstream answer. *)
Theorem token_route_replies
  (cfg : env) (w : world) (n : nat) (req_body : value) :
  (forall err,
     net w n (token_request cfg) = Rejected err ->
     run w n (token cfg req_body) =
     ([Sent (token_request cfg) (Rejected err)],
      Normal {| code := 500;
                body := JObj [("error", JStr (message err))] |})) /\
  (forall resp,
     net w n (token_request cfg) = Fulfilled resp ->
     nullish (data resp) = false ->
     run w n (token cfg req_body) =
     ([Sent (token_request cfg) (Fulfilled resp)],
      Normal {| code := 200;
                body := JObj [("access_token",
                                get (data resp) "access_token")] |})).
Proof.
  split.
  - intros err Hnet. now apply run_token_rejected.
  - intros resp Hnet Hdata. now apply run_token_fulfilled.
Qed.

Lemma token_route_replies_witness :
  run Fixtures.token_refused 0 (token Fixtures.sandbox_env JUndefined) =
    ([Sent (token_request Fixtures.sandbox_env) (Rejected Fixtures.unauthorized)],
     Normal {| code := 500;
               body := JObj [("error",
                               JStr "Request failed with status code 401")] |}) /\
  run Fixtures.happy 0 (token Fixtures.sandbox_env JUndefined) =
    ([Sent (token_request Fixtures.sandbox_env)
        (Fixtures.ok (JObj [("access_token", Fixtures.fresh_token 0);
                            ("expires_in", JStr "3599")]))],
     Normal {| code := 200;
               body := JObj [("access_token", JStr "token-0")] |}).
Proof.
  split.
  - apply (proj1 (token_route_replies Fixtures.sandbox_env
                    Fixtures.token_refused 0 JUndefined)
             Fixtures.unauthorized).
    reflexivity.
  - apply (proj2 (token_route_replies Fixtures.sandbox_env
                    Fixtures.happy 0 JUndefined)
             {| status := 200;
                data := JObj [("access_token", Fixtures.fresh_token 0);
                              ("expires_in", JStr "3599")] |});
      reflexivity.
Defined.

(** C10.  When the token endpoint answers 2xx with a JSON object that has
    no [access_token], [getOAuthToken] returns [undefined] and throws
    nothing: [GET /token] answers 200 with [{access_token: undefined}],
    and [/stkpush] goes on to call the gateway with the header
    [Authorization: Bearer undefined]. *)
Theorem missing_access_token
  (nts : float -> string) (cfg : env) (w : world) (n : nat)
  (resp : axios_response) (props : list (string * value))
  (req_body any : value) :
  net w n (token_request cfg) = Fulfilled resp ->
  data resp = JObj props ->
  lookup "access_token" props = None ->
  nullish req_body = false ->
  run w n (getOAuthToken cfg) =
    ([Sent (token_request cfg) (Fulfilled resp)], Normal JUndefined) /\
  run w n (token cfg any) =
    ([Sent (token_request cfg) (Fulfilled resp)],
     Normal {| code := 200; body := JObj [("access_token", JUndefined)] |}) /\
  exists url payload,
    requests_of (fst (run w n (stkpush nts cfg req_body))) =
      [token_request cfg;
       POST url payload [("Authorization", "Bearer undefined")]].
Proof.
  intros Hnet Hdata Htoken Hbody.
  assert (Hok : nullish (data resp) = false) by now rewrite Hdata.
  assert (Hget : get (data resp) "access_token" = JUndefined)
    by (rewrite Hdata; now apply get_absent).
  split; [|split].
  - rewrite (run_getOAuthToken_fulfilled cfg w n resp Hnet Hok).
    now rewrite Hget.
  - rewrite (run_token_fulfilled cfg w n any resp Hnet Hok).
    now rewrite Hget.
  - rewrite (run_stkpush_token_fulfilled nts cfg w n req_body resp
               Hbody Hnet Hok).
    cbv zeta. unfold stk_request. rewrite Hget.
    do 2 eexists. destruct (net w (S (S n)) _); reflexivity.
Qed.

Lemma missing_access_token_witness :
  run Fixtures.token_missing 0 (getOAuthToken Fixtures.sandbox_env) =
    ([Sent (token_request Fixtures.sandbox_env)
        (Fixtures.ok (JObj [("expires_in", JStr "3599")]))],
     Normal JUndefined) /\
  run Fixtures.token_missing 0 (token Fixtures.sandbox_env JUndefined) =
    ([Sent (token_request Fixtures.sandbox_env)
        (Fixtures.ok (JObj [("expires_in", JStr "3599")]))],
     Normal {| code := 200; body := JObj [("access_token", JUndefined)] |}) /\
  exists url payload,
    requests_of
      (fst (run Fixtures.token_missing 0
              (stkpush Fixtures.Number_toString Fixtures.sandbox_env
                 (JObj [("amount", JNum 100);
                        ("phone", JStr "254712345678")])))) =
      [token_request Fixtures.sandbox_env;
       POST url payload [("Authorization", "Bearer undefined")]].
Proof.
  apply (missing_access_token Fixtures.Number_toString Fixtures.sandbox_env
           Fixtures.token_missing 0
           {| status := 200; data := JObj [("expires_in", JStr "3599")] |}
           [("expires_in", JStr "3599")]
           (JObj [("amount", JNum 100); ("phone", JStr "254712345678")])
           JUndefined);
    reflexivity.
Defined.

(** A body that is the JSON value [null] has no field to read: the
    property read throws, and the [catch] block answers 500. *)
Example token_null_body :
  snd (run {| net := fun _ _ => Fixtures.ok JNull; clock := fun _ => 0%Z |} 0
         (token Fixtures.sandbox_env JUndefined))
  = Normal {| code := 500;
              body := JObj [("error",
                              JStr "Cannot read properties of null (reading 'access_token')")] |}.
Proof. reflexivity. Qed.

End Properties.

(** * Further properties of the handlers *)

Module Outcomes.
Import Js Effects EffectsFacts JsString JsStringFacts.
Import Server ServerFacts.

(** The URL of an outbound request. *)
Definition url_of (rq : request) : string :=
  match rq with
  | GET url _ => url
  | POST url _ _ => url
  end.

(** [s] starts with [p]. *)
Fixpoint starts_with (p s : string) : bool :=
  match p, s with
  | EmptyString, _ => true
  | String _ _, EmptyString => false
  | String a p', String b s' => Ascii.eqb a b && starts_with p' s'
  end.

(** A byte of the ASCII range: one UTF-16 code unit of the JavaScript
    string. *)
Definition is_ascii (c : ascii) : bool := (N_of_ascii c <? 128)%N.


Lemma error_detail_no_response err :
  response err = None -> error_detail err = JStr (message err).
Proof.
  intros H. unfold error_detail, response_data, or_else. now rewrite H.
Qed.

Lemma error_detail_defined err : error_detail err <> JUndefined.
Proof.
  unfold error_detail, or_else.
  destruct (truthy (response_data err)) eqn:E; [|discriminate].
  intros H. rewrite H in E. discriminate.
Qed.

(** A body that cannot be destructured: the [catch] block answers, and
    nothing has been sent. *)
Lemma run_stkpush_unusable_body nts cfg w n req_body :
  nullish req_body = true ->
  exists err,
    response err = None /\
    run w n (stkpush nts cfg req_body) =
    ([Printed Error [error_detail err]], Normal (failure_reply err)).
Proof.
  intros Hbody.
  destruct req_body; try discriminate;
    (eexists; split; [|reflexivity]; reflexivity).
Qed.

Lemma run_c2b_register_unusable_body nts cfg w n req_body :
  nullish req_body = true ->
  exists err,
    response err = None /\
    run w n (c2b_register nts cfg req_body) =
    ([Printed Error [error_detail err]], Normal (failure_reply err)).
Proof.
  intros Hbody.
  destruct req_body; try discriminate;
    (eexists; split; [|reflexivity]; reflexivity).
Qed.

Lemma run_token_nullish cfg w n req_body resp :
  net w n (token_request cfg) = Fulfilled resp ->
  nullish (data resp) = true ->
  exists err,
    run w n (token cfg req_body) =
    ([Sent (token_request cfg) (Fulfilled resp)],
     Normal {| code := 500; body := JObj [("error", JStr (message err))] |}).
Proof.
  intros Hnet Hdata.
  destruct (run_getOAuthToken_nullish cfg w n resp Hnet Hdata)
    as (err & _ & Hrun).
  exists err. unfold token. rewrite run_try_catch, run_bind, Hrun.
  reflexivity.
Qed.

(** Every way a run of [/stkpush] can go. *)
Inductive stkpush_run (nts : float -> string) (cfg : env) (w : world)
  (n : nat) (req_body : value)
  : list event * completion http_reply -> Prop :=
| StkUnusableBody err :
    nullish req_body = true ->
    response err = None ->
    stkpush_run nts cfg w n req_body
      ([Printed Error [error_detail err]], Normal (failure_reply err))
| StkTokenRejected err :
    nullish req_body = false ->
    net w n (token_request cfg) = Rejected err ->
    stkpush_run nts cfg w n req_body
      ([Sent (token_request cfg) (Rejected err);
        Printed Error [error_detail err]],
       Normal (failure_reply err))
| StkTokenUnreadable resp err :
    nullish req_body = false ->
    net w n (token_request cfg) = Fulfilled resp ->
    nullish (data resp) = true ->
    response err = None ->
    stkpush_run nts cfg w n req_body
      ([Sent (token_request cfg) (Fulfilled resp);
        Printed Error [error_detail err]],
       Normal (failure_reply err))
| StkPushRejected resp err :
    nullish req_body = false ->
    net w n (token_request cfg) = Fulfilled resp ->
    nullish (data resp) = false ->
    net w (S (S n))
      (stk_request nts cfg req_body (get (data resp) "access_token")
         (clock w (S n))) = Rejected err ->
    stkpush_run nts cfg w n req_body
      ([Sent (token_request cfg) (Fulfilled resp);
        Clock (clock w (S n));
        Sent (stk_request nts cfg req_body (get (data resp) "access_token")
                (clock w (S n))) (Rejected err);
        Printed Error [error_detail err]],
       Normal (failure_reply err))
| StkPushFulfilled resp r :
    nullish req_body = false ->
    net w n (token_request cfg) = Fulfilled resp ->
    nullish (data resp) = false ->
    net w (S (S n))
      (stk_request nts cfg req_body (get (data resp) "access_token")
         (clock w (S n))) = Fulfilled r ->
    stkpush_run nts cfg w n req_body
      ([Sent (token_request cfg) (Fulfilled resp);
        Clock (clock w (S n));
        Sent (stk_request nts cfg req_body (get (data resp) "access_token")
                (clock w (S n))) (Fulfilled r)],
       Normal {| code := 200; body := data r |}).

Lemma stkpush_runs nts cfg w n req_body :
  stkpush_run nts cfg w n req_body (run w n (stkpush nts cfg req_body)).
Proof.
  destruct (nullish req_body) eqn:Hbody.
  - destruct (run_stkpush_unusable_body nts cfg w n req_body Hbody)
      as (err & Herr & ->).
    now constructor.
  - destruct (net w n (token_request cfg)) as [resp|err] eqn:Hnet.
    + destruct (nullish (data resp)) eqn:Hdata.
      * destruct (run_stkpush_token_nullish nts cfg w n req_body resp
                    Hbody Hnet Hdata) as (err & Herr & ->).
        now apply StkTokenUnreadable.
      * rewrite (run_stkpush_token_fulfilled nts cfg w n req_body resp
                   Hbody Hnet Hdata).
        cbv zeta.
        destruct (net w (S (S n)) _) as [r|err] eqn:Hpush.
        -- now apply StkPushFulfilled.
        -- now apply StkPushRejected.
    + rewrite (run_stkpush_token_rejected nts cfg w n req_body err Hbody Hnet).
      now apply StkTokenRejected.
Qed.

(** Every way a run of [/c2b/register] can go. *)
Inductive c2b_register_run (nts : float -> string) (cfg : env) (w : world)
  (n : nat) (req_body : value)
  : list event * completion http_reply -> Prop :=
| C2bUnusableBody err :
    nullish req_body = true ->
    response err = None ->
    c2b_register_run nts cfg w n req_body
      ([Printed Error [error_detail err]], Normal (failure_reply err))
| C2bTokenRejected err :
    nullish req_body = false ->
    net w n (token_request cfg) = Rejected err ->
    c2b_register_run nts cfg w n req_body
      ([Sent (token_request cfg) (Rejected err);
        Printed Error [error_detail err]],
       Normal (failure_reply err))
| C2bTokenUnreadable resp err :
    nullish req_body = false ->
    net w n (token_request cfg) = Fulfilled resp ->
    nullish (data resp) = true ->
    response err = None ->
    c2b_register_run nts cfg w n req_body
      ([Sent (token_request cfg) (Fulfilled resp);
        Printed Error [error_detail err]],
       Normal (failure_reply err))
| C2bRegisterRejected resp err :
    nullish req_body = false ->
    net w n (token_request cfg) = Fulfilled resp ->
    nullish (data resp) = false ->
    net w (S n)
      (c2b_request nts cfg req_body (get (data resp) "access_token"))
      = Rejected err ->
    c2b_register_run nts cfg w n req_body
      ([Sent (token_request cfg) (Fulfilled resp);
        Sent (c2b_request nts cfg req_body (get (data resp) "access_token"))
          (Rejected err);
        Printed Error [error_detail err]],
       Normal (failure_reply err))
| C2bRegisterFulfilled resp r :
    nullish req_body = false ->
    net w n (token_request cfg) = Fulfilled resp ->
    nullish (data resp) = false ->
    net w (S n)
      (c2b_request nts cfg req_body (get (data resp) "access_token"))
      = Fulfilled r ->
    c2b_register_run nts cfg w n req_body
      ([Sent (token_request cfg) (Fulfilled resp);
        Sent (c2b_request nts cfg req_body (get (data resp) "access_token"))
          (Fulfilled r)],
       Normal {| code := 200; body := data r |}).

Lemma c2b_register_runs nts cfg w n req_body :
  c2b_register_run nts cfg w n req_body
    (run w n (c2b_register nts cfg req_body)).
Proof.
  destruct (nullish req_body) eqn:Hbody.
  - destruct (run_c2b_register_unusable_body nts cfg w n req_body Hbody)
      as (err & Herr & ->).
    now constructor.
  - destruct (net w n (token_request cfg)) as [resp|err] eqn:Hnet.
    + destruct (nullish (data resp)) eqn:Hdata.
      * destruct (run_c2b_register_token_nullish nts cfg w n req_body resp
                    Hbody Hnet Hdata) as (err & Herr & ->).
        now apply C2bTokenUnreadable.
      * rewrite (run_c2b_register_token_fulfilled nts cfg w n req_body resp
                   Hbody Hnet Hdata).
        cbv zeta.
        destruct (net w (S n) _) as [r|err] eqn:Hpush.
        -- now apply C2bRegisterFulfilled.
        -- now apply C2bRegisterRejected.
    + rewrite (run_c2b_register_token_rejected nts cfg w n req_body err
                 Hbody Hnet).
      now apply C2bTokenRejected.
Qed.

End Outcomes.

Module Coverage.
Import Js Effects EffectsFacts JsString JsStringFacts.
Import Server ServerFacts Outcomes.

(** X1.  The three routes whose body is wrapped in [try]/[catch] always
    answer: for every world and every [req.body], also [null] and
    [undefined], the run ends in a reply, and its status is 200 or 500. *)
Theorem guarded_routes_always_reply
  (nts : float -> string) (cfg : env) (w : world) (n : nat)
  (req_body : value) :
  (exists tr reply,
     run w n (stkpush nts cfg req_body) = (tr, Normal reply) /\
     (code reply = 200%Z \/ code reply = 500%Z)) /\
  (exists tr reply,
     run w n (c2b_register nts cfg req_body) = (tr, Normal reply) /\
     (code reply = 200%Z \/ code reply = 500%Z)) /\
  (exists tr reply,
     run w n (token cfg req_body) = (tr, Normal reply) /\
     (code reply = 200%Z \/ code reply = 500%Z)).
Proof.
  split; [|split].
  - destruct (stkpush_runs nts cfg w n req_body); eauto.
  - destruct (c2b_register_runs nts cfg w n req_body); eauto.
  - destruct (net w n (token_request cfg)) as [resp|err] eqn:Hnet.
    + destruct (nullish (data resp)) eqn:Hdata.
      * destruct (run_token_nullish cfg w n req_body resp Hnet Hdata)
          as (err & ->). eauto.
      * rewrite (run_token_fulfilled cfg w n req_body resp Hnet Hdata). eauto.
    + rewrite (run_token_rejected cfg w n req_body err Hnet). eauto.
Qed.






(** X5.  When [req.body] is [null] or [undefined], [/stkpush] and
    [/c2b/register] answer 500 with the message of the [TypeError] and send
    nothing: no token is asked for. *)
Theorem unusable_body_sends_nothing
  (nts : float -> string) (cfg : env) (w : world) (n : nat)
  (req_body : value) :
  nullish req_body = true ->
  (exists msg,
     requests_of (fst (run w n (stkpush nts cfg req_body))) = [] /\
     snd (run w n (stkpush nts cfg req_body)) =
       Normal {| code := 500; body := JObj [("error", JStr msg)] |}) /\
  (exists msg,
     requests_of (fst (run w n (c2b_register nts cfg req_body))) = [] /\
     snd (run w n (c2b_register nts cfg req_body)) =
       Normal {| code := 500; body := JObj [("error", JStr msg)] |}).
Proof.
  intros Hbody. split.
  - destruct (run_stkpush_unusable_body nts cfg w n req_body Hbody)
      as (err & Herr & ->).
    exists (message err). unfold failure_reply.
    rewrite (error_detail_no_response err Herr). auto.
  - destruct (run_c2b_register_unusable_body nts cfg w n req_body Hbody)
      as (err & Herr & ->).
    exists (message err). unfold failure_reply.
    rewrite (error_detail_no_response err Herr). auto.
Qed.

Lemma unusable_body_sends_nothing_witness :
  (exists msg,
     requests_of
       (fst (run Fixtures.happy 0
               (stkpush Fixtures.Number_toString Fixtures.sandbox_env
                  JUndefined))) = [] /\
     snd (run Fixtures.happy 0
            (stkpush Fixtures.Number_toString Fixtures.sandbox_env JUndefined))
       = Normal {| code := 500; body := JObj [("error", JStr msg)] |}) /\
  (exists msg,
     requests_of
       (fst (run Fixtures.happy 0
               (c2b_register Fixtures.Number_toString Fixtures.sandbox_env
                  JUndefined))) = [] /\
     snd (run Fixtures.happy 0
            (c2b_register Fixtures.Number_toString Fixtures.sandbox_env
               JUndefined))
       = Normal {| code := 500; body := JObj [("error", JStr msg)] |}).
Proof.
  apply (unusable_body_sends_nothing Fixtures.Number_toString
           Fixtures.sandbox_env Fixtures.happy 0 JUndefined).
  reflexivity.
Defined.

Lemma length_slice0 n s :
  String.length (slice0 n s) = Nat.min n (String.length s).
Proof.
  revert s. induction n as [|n IH]; intros [|c s]; cbn; auto.
Qed.

Lemma starts_with_slice0 n s : starts_with (slice0 n s) s = true.
Proof.
  revert s. induction n as [|n IH]; intros [|c s]; cbn; auto.
  now rewrite Ascii.eqb_refl, IH.
Qed.

Lemma starts_with_append p s : starts_with p (p ++ s) = true.
Proof.
  induction p as [|c p IH]; cbn; [now destruct s|].
  now rewrite Ascii.eqb_refl, IH.
Qed.

Lemma callback_requests nts w n req_body :
  requests_of (fst (run w n (callback nts req_body))) = [].
Proof. now destruct req_body. Qed.

(** X6.  [/callback] never calls out.  It answers exactly when [req.body]
    is not [undefined]; on [undefined] the handler, which has no [try],
    throws before it prints or answers. *)
Theorem callback_replies_iff
  (nts : float -> string) (w : world) (n : nat) (req_body : value) :
  requests_of (fst (run w n (callback nts req_body))) = [] /\
  ((exists reply, snd (run w n (callback nts req_body)) = Normal reply)
   <-> req_body <> JUndefined) /\
  (req_body = JUndefined ->
   exists err, run w n (callback nts req_body) = ([], Abrupt err)).
Proof.
  destruct req_body;
    (split; [reflexivity|]; split;
     [split; [intros [reply H]; try discriminate H; discriminate
             |intros H; try (now contradiction H); eexists; reflexivity]
     |intros H; try discriminate H; eexists; reflexivity]).
Qed.

(** X7.  The line [/callback] prints holds the first 1000 characters of
    [JSON.stringify(req.body)], all of it when it is shorter (stated for
    text in the ASCII range, where a character is one byte of the
    model). *)
Theorem callback_log_bounded
  (nts : float -> string) (w : world) (n : nat) (req_body : value)
  (text : string) :
  JSON_stringify nts req_body = Some text ->
  all_chars is_ascii text = true ->
  exists logged,
    fst (run w n (callback nts req_body)) =
      [Printed Log [JStr "Callback received:"; JStr logged]] /\
    starts_with logged text = true /\
    String.length logged = Nat.min 1000 (String.length text).
Proof.
  intros Htext _. exists (slice0 1000 text).
  rewrite (run_callback nts w n req_body text Htext).
  split; [reflexivity|]. split.
  - apply starts_with_slice0.
  - apply length_slice0.
Qed.

Lemma callback_log_bounded_witness :
  exists logged,
    fst (run Fixtures.happy 0
           (callback Fixtures.Number_toString
              (JObj [("ResultCode", JNum 0)]))) =
      [Printed Log [JStr "Callback received:"; JStr logged]] /\
    starts_with logged
      (String.concat "" ["{"; quote "ResultCode"; ":0}"]) = true /\
    String.length logged =
      Nat.min 1000
        (String.length (String.concat "" ["{"; quote "ResultCode"; ":0}"])).
Proof.
  apply (callback_log_bounded Fixtures.Number_toString Fixtures.happy 0
           (JObj [("ResultCode", JNum 0)])
           (String.concat "" ["{"; quote "ResultCode"; ":0}"]));
    reflexivity.
Defined.



Example startup_without_passkey :
  run Fixtures.happy 0
    (startup {| CONSUMER_KEY := Some "key"; CONSUMER_SECRET := Some "secret";
                SHORTCODE := Some "174379"; PASSKEY := Some "";
                BASE_URL := None; CALLBACK_URL := None;
                PORT := Some "8080" |})
  = ([Printed Warn
        [JStr "Missing env vars - please set CONSUMER_KEY, CONSUMER_SECRET, SHORTCODE, PASSKEY"];
      Printed Log [JStr "Server listening on 8080"]],
     Normal tt).
Proof. reflexivity. Qed.

Lemma token_requests cfg w n req_body :
  requests_of (fst (run w n (token cfg req_body))) = [token_request cfg].
Proof.
  destruct (net w n (token_request cfg)) as [resp|err] eqn:Hnet.
  - destruct (nullish (data resp)) eqn:Hdata.
    + now destruct (run_token_nullish cfg w n req_body resp Hnet Hdata)
        as (err & ->).
    + now rewrite (run_token_fulfilled cfg w n req_body resp Hnet Hdata).
  - now rewrite (run_token_rejected cfg w n req_body err Hnet).
Qed.

(** X9.  Whatever route is invoked, with whatever body and in whatever
    world, every request the server sends goes to a URL under the base URL
    of the environment (BASE_URL, or the sandbox when that is unset or
    empty), and the routes send at most two requests. *)
Theorem requests_stay_under_base_url
  (nts : float -> string) (cfg : env) (w : world) (n : nat)
  (method path : string) (handler : value -> prog http_reply)
  (req_body : value) :
  route nts cfg method path = Some handler ->
  let sent := requests_of (fst (run w n (handler req_body))) in
  Forall (fun rq =>
            starts_with (env_or (BASE_URL cfg) "https://sandbox.safaricom.co.ke")
              (url_of rq) = true) sent /\
  (List.length sent <= 2)%nat.
Proof.
  intros Hroute sent. subst sent.
  assert (Htok :
    starts_with (env_or (BASE_URL cfg) "https://sandbox.safaricom.co.ke")
      (url_of (token_request cfg)) = true)
    by apply starts_with_append.
  unfold route in Hroute.
  repeat match type of Hroute with
    | (if ?c then _ else _) = _ => destruct c
    end; try discriminate Hroute; injection Hroute as <-.
  - destruct (stkpush_runs nts cfg w n req_body); cbn [fst requests_of length];
      (split; [repeat constructor;
                 try assumption; apply starts_with_append | auto]).
  - destruct (c2b_register_runs nts cfg w n req_body);
      cbn [fst requests_of length];
      (split; [repeat constructor;
                 try assumption; apply starts_with_append | auto]).
  - rewrite callback_requests. split; [constructor | cbn; auto].
  - rewrite token_requests. cbn [length].
    split; [repeat constructor; assumption | auto].
Qed.

Lemma requests_stay_under_base_url_witness :
  Forall (fun rq =>
            starts_with
              (env_or (BASE_URL Fixtures.sandbox_env)
                 "https://sandbox.safaricom.co.ke")
              (url_of rq) = true)
    (requests_of
       (fst (run Fixtures.happy 0
               (stkpush Fixtures.Number_toString Fixtures.sandbox_env
                  (JObj [("amount", JNum 100);
                         ("phone", JStr "254712345678")]))))) /\
  (List.length
     (requests_of
        (fst (run Fixtures.happy 0
                (stkpush Fixtures.Number_toString Fixtures.sandbox_env
                   (JObj [("amount", JNum 100);
                          ("phone", JStr "254712345678")]))))) <= 2)%nat.
Proof.
  apply (requests_stay_under_base_url Fixtures.Number_toString
           Fixtures.sandbox_env Fixtures.happy 0 "POST" "/stkpush"
           (stkpush Fixtures.Number_toString Fixtures.sandbox_env)
           (JObj [("amount", JNum 100); ("phone", JStr "254712345678")])).
  reflexivity.
Defined.



(** What a trace prints, in order. *)
Fixpoint printed_of (tr : list event) : list (level * list value) :=
  match tr with
  | [] => []
  | Printed l args :: rest => (l, args) :: printed_of rest
  | _ :: rest => printed_of rest
  end.

(** X13.  [/stkpush] and [/c2b/register] print what they answer: a run
    that answers 500 has printed, with [console.error] and nothing else,
    the very value of the reply's [error] field, which is never
    [undefined]; a run that answers 200 has printed nothing. *)
Theorem failures_are_printed
  (nts : float -> string) (cfg : env) (w : world) (n : nat)
  (req_body : value) (handler : value -> prog http_reply) :
  handler = stkpush nts cfg \/ handler = c2b_register nts cfg ->
  exists reply,
    snd (run w n (handler req_body)) = Normal reply /\
    ((code reply = 200%Z /\
      printed_of (fst (run w n (handler req_body))) = []) \/
     (exists detail,
        detail <> JUndefined /\
        reply = {| code := 500; body := JObj [("error", detail)] |} /\
        printed_of (fst (run w n (handler req_body)))
          = [(Error, [detail])])).
Proof.
  intros [-> | ->].
  - destruct (stkpush_runs nts cfg w n req_body);
      eexists; (split; [reflexivity|]); cbn [fst printed_of];
      solve [ left; split; reflexivity
            | right; exists (error_detail err);
              split; [apply error_detail_defined | split; reflexivity] ].
  - destruct (c2b_register_runs nts cfg w n req_body);
      eexists; (split; [reflexivity|]); cbn [fst printed_of];
      solve [ left; split; reflexivity
            | right; exists (error_detail err);
              split; [apply error_detail_defined | split; reflexivity] ].
Qed.

Lemma failures_are_printed_witness :
  exists reply,
    snd (run Fixtures.gateway_down 0
           (stkpush Fixtures.Number_toString Fixtures.sandbox_env
              (JObj [("amount", JNum 100)]))) = Normal reply /\
    ((code reply = 200%Z /\
      printed_of
        (fst (run Fixtures.gateway_down 0
                (stkpush Fixtures.Number_toString Fixtures.sandbox_env
                   (JObj [("amount", JNum 100)])))) = []) \/
     (exists detail,
        detail <> JUndefined /\
        reply = {| code := 500; body := JObj [("error", detail)] |} /\
        printed_of
          (fst (run Fixtures.gateway_down 0
                  (stkpush Fixtures.Number_toString Fixtures.sandbox_env
                     (JObj [("amount", JNum 100)]))))
          = [(Error, [detail])])).
Proof.
  apply (failures_are_printed Fixtures.Number_toString Fixtures.sandbox_env
           Fixtures.gateway_down 0 (JObj [("amount", JNum 100)])
           (stkpush Fixtures.Number_toString Fixtures.sandbox_env)).
  left. reflexivity.
Defined.

Example gateway_down_is_printed :
  printed_of
    (fst (run Fixtures.gateway_down 0
            (stkpush Fixtures.Number_toString Fixtures.sandbox_env
               (JObj [("amount", JNum 100)]))))
  = [(Error, [JStr "Network Error"])].
Proof. reflexivity. Qed.

End Coverage.

(** ** The timestamp and the clock *)

Module TimestampCoverage.
Import JsString JsStringFacts JsDate JsDateFacts Server TimestampFacts.
Local Open Scope Z_scope.

(** Days of the year before month [m] (0 = January), [l] being 1 in a
    leap year. *)
Definition days_before_month (m l : Z) : Z :=
  match m with
  | 0 => 0
  | 1 => 31
  | 2 => 59 + l
  | 3 => 90 + l
  | 4 => 120 + l
  | 5 => 151 + l
  | 6 => 181 + l
  | 7 => 212 + l
  | 8 => 243 + l
  | 9 => 273 + l
  | 10 => 304 + l
  | _ => 334 + l
  end.

Lemma DayWithinYear_of_fields t :
  DayWithinYear t =
  days_before_month (MonthFromTime t) (InLeapYear t) + DateFromTime t - 1.
Proof.
  unfold DateFromTime, MonthFromTime.
  set (d := DayWithinYear t). set (l := InLeapYear t).
  repeat match goal with
    | |- context [Z.ltb ?a ?b] => destruct (Z.ltb a b)
    end; cbn [days_before_month]; lia.
Qed.

Lemma Day_of_second t : Day t = (t / 1000) / 86400.
Proof. unfold Day, msPerDay. lia. Qed.

(** The second of an instant, from its day and the fields of its time. *)
Lemma second_of_fields t :
  t / 1000 =
  Day t * 86400 + HourFromTime t * 3600 + MinFromTime t * 60 + SecFromTime t.
Proof.
  unfold Day, HourFromTime, MinFromTime, SecFromTime,
    msPerDay, msPerHour, msPerMinute, msPerSecond.
  lia.
Qed.

(** Every field but the milliseconds is a function of the second. *)
Lemma fields_of_second t1 t2 :
  t1 / 1000 = t2 / 1000 ->
  YearFromTime t1 = YearFromTime t2 /\
  MonthFromTime t1 = MonthFromTime t2 /\
  DateFromTime t1 = DateFromTime t2 /\
  HourFromTime t1 = HourFromTime t2 /\
  MinFromTime t1 = MinFromTime t2 /\
  SecFromTime t1 = SecFromTime t2.
Proof.
  intros Hs.
  assert (Hday : Day t1 = Day t2) by now rewrite !Day_of_second, Hs.
  assert (Hy : YearFromTime t1 = YearFromTime t2)
    by (unfold YearFromTime; now rewrite Hday).
  assert (Hl : InLeapYear t1 = InLeapYear t2)
    by (unfold InLeapYear; now rewrite Hy).
  assert (Hd : DayWithinYear t1 = DayWithinYear t2)
    by (unfold DayWithinYear; now rewrite Hday, Hy).
  assert (Hm : MonthFromTime t1 = MonthFromTime t2)
    by (unfold MonthFromTime; now rewrite Hd, Hl).
  repeat split; try assumption.
  - unfold DateFromTime. now rewrite Hm, Hd, Hl.
  - unfold HourFromTime, msPerHour. lia.
  - unfold MinFromTime, msPerMinute. lia.
  - unfold SecFromTime, msPerSecond. now rewrite Hs.
Qed.

Lemma slice0_app_le n s u :
  (n <= String.length s)%nat -> slice0 n (s ++ u)%string = slice0 n s.
Proof.
  revert s. induction n as [|n IH]; intros [|c s] H; cbn in *;
    try reflexivity; try lia.
  now rewrite IH by lia.
Qed.

(** The year of the ISO rendering once the separators are removed: the
    minus sign of a negative year goes, the plus sign stays. *)
Definition stripped_year (y : Z) : string :=
  if (0 <=? y) && (y <=? 9999) then pad 4 y
  else if y <? 0 then pad 6 (Z.abs y)
  else ("+" ++ pad 6 (Z.abs y))%string.

Lemma length_stripped_year y : (4 <= String.length (stripped_year y))%nat.
Proof.
  unfold stripped_year.
  destruct ((0 <=? y) && (y <=? 9999)); [|destruct (y <? 0)];
    rewrite ?length_app, !length_pad; cbn; lia.
Qed.

(** The timestamp never reaches the milliseconds of the ISO rendering. *)
Lemma timestamp_of_without_ms t :
  timestamp_of t =
  slice0 14
    (stripped_year (YearFromTime t) ++ pad 2 (MonthFromTime t + 1)
       ++ pad 2 (DateFromTime t) ++ pad 2 (HourFromTime t)
       ++ pad 2 (MinFromTime t) ++ pad 2 (SecFromTime t))%string.
Proof.
  unfold timestamp_of, toISOString. cbv zeta.
  set (ytext := if (0 <=? YearFromTime t) && (YearFromTime t <=? 9999)
                then _ else _).
  assert (Hy : remove_class separator ytext = stripped_year (YearFromTime t)).
  { subst ytext. unfold stripped_year.
    destruct ((0 <=? YearFromTime t) && (YearFromTime t <=? 9999)).
    - apply remove_separators_pad.
    - destruct (YearFromTime t <? 0);
        now rewrite remove_class_app, remove_separators_pad. }
  rewrite !remove_class_app, !remove_separators_pad, Hy.
  change (remove_class separator "-") with ""%string.
  change (remove_class separator "T") with ""%string.
  change (remove_class separator ":") with ""%string.
  change (remove_class separator ".") with ""%string.
  change (remove_class separator "Z") with ""%string.
  cbn [append].
  set (y := stripped_year _).
  set (mo := pad 2 (MonthFromTime t + 1)).
  set (d := pad 2 (DateFromTime t)). set (h := pad 2 (HourFromTime t)).
  set (mi := pad 2 (MinFromTime t)). set (se := pad 2 (SecFromTime t)).
  set (ms := (pad 3 _ ++ "")%string).
  replace (y ++ mo ++ d ++ h ++ mi ++ se ++ ms)%string
    with ((y ++ mo ++ d ++ h ++ mi ++ se) ++ ms)%string
    by now rewrite !append_assoc.
  apply slice0_app_le.
  pose proof (length_stripped_year (YearFromTime t)) as Hlen. fold y in Hlen.
  subst mo d h mi se. rewrite !length_app, !length_pad. lia.
Qed.

(** X10.  The timestamp has the resolution of a second: two instants of
    the same second, in whatever year, give the same timestamp, so the
    milliseconds of the clock never reach the gateway. *)
Theorem timestamp_same_second (t1 t2 : Z) :
  t1 / 1000 = t2 / 1000 -> timestamp_of t1 = timestamp_of t2.
Proof.
  intros Hs.
  destruct (fields_of_second t1 t2 Hs) as (Hy & Hmo & Hd & Hh & Hmi & Hse).
  rewrite !timestamp_of_without_ms.
  now rewrite Hy, Hmo, Hd, Hh, Hmi, Hse.
Qed.

Lemma timestamp_same_second_witness :
  timestamp_of Fixtures.noon = timestamp_of (Fixtures.noon + 999).
Proof.
  apply (timestamp_same_second Fixtures.noon (Fixtures.noon + 999)).
  reflexivity.
Defined.

Lemma append_inj_length (a a' b b' : string) :
  String.length a = String.length a' ->
  (a ++ b = a' ++ b')%string -> a = a' /\ b = b'.
Proof.
  revert a'. induction a as [|c a IH]; intros [|c' a'] Hlen H;
    cbn in *; try discriminate.
  - now split.
  - injection H as -> H. injection Hlen as Hlen.
    destruct (IH a' Hlen H) as [-> ->]. now split.
Qed.

(** X11.  In the years 0 to 9999 the timestamp tells the second: two
    instants with the same timestamp lie in the same second. *)
Theorem timestamp_tells_the_second (t1 t2 : Z) :
  0 <= YearFromTime t1 <= 9999 ->
  0 <= YearFromTime t2 <= 9999 ->
  timestamp_of t1 = timestamp_of t2 ->
  t1 / 1000 = t2 / 1000.
Proof.
  intros Hy1 Hy2 H.
  rewrite (timestamp_of_four_digit_year t1 Hy1) in H.
  rewrite (timestamp_of_four_digit_year t2 Hy2) in H.
  destruct (fields_read_back t1 Hy1) as (Ry1 & Rmo1 & Rd1 & Rh1 & Rmi1 & Rs1).
  destruct (fields_read_back t2 Hy2) as (Ry2 & Rmo2 & Rd2 & Rh2 & Rmi2 & Rs2).
  apply append_inj_length in H as [Ey H]; [|now rewrite !length_pad].
  apply append_inj_length in H as [Emo H]; [|now rewrite !length_pad].
  apply append_inj_length in H as [Ed H]; [|now rewrite !length_pad].
  apply append_inj_length in H as [Eh H]; [|now rewrite !length_pad].
  apply append_inj_length in H as [Emi Es]; [|now rewrite !length_pad].
  rewrite Ey in Ry1. rewrite Emo in Rmo1. rewrite Ed in Rd1.
  rewrite Eh in Rh1. rewrite Emi in Rmi1. rewrite Es in Rs1.
  assert (Y : YearFromTime t1 = YearFromTime t2) by congruence.
  assert (Mo : MonthFromTime t1 = MonthFromTime t2) by lia.
  assert (D : DateFromTime t1 = DateFromTime t2) by congruence.
  assert (Ho : HourFromTime t1 = HourFromTime t2) by congruence.
  assert (Mi : MinFromTime t1 = MinFromTime t2) by congruence.
  assert (Se : SecFromTime t1 = SecFromTime t2) by congruence.
  assert (L : InLeapYear t1 = InLeapYear t2)
    by (unfold InLeapYear; now rewrite Y).
  pose proof (DayWithinYear_of_fields t1) as W1.
  pose proof (DayWithinYear_of_fields t2) as W2.
  rewrite Mo, D, L in W1. rewrite <- W2 in W1.
  assert (Dy : Day t1 = Day t2)
    by (unfold DayWithinYear in W1; rewrite Y in W1; lia).
  rewrite (second_of_fields t1), (second_of_fields t2).
  now rewrite Dy, Ho, Mi, Se.
Qed.

Lemma timestamp_tells_the_second_witness :
  Fixtures.noon / 1000 = (Fixtures.noon + 999) / 1000.
Proof.
  apply (timestamp_tells_the_second Fixtures.noon (Fixtures.noon + 999)).
  - vm_compute. split; discriminate.
  - vm_compute. split; discriminate.
  - vm_compute. reflexivity.
Defined.

End TimestampCoverage.
